(** * Avalanche CLI MCP server: dispatcher and tool handlers

    A shallow embedding of [src/avalanche-cli-mcp-server.ts].  The seven
    tool handlers and the [CallToolRequestSchema] dispatcher are written as
    computations in a state-and-exception monad over an explicit model of
    the host (platform, home directory, file system, external commands).

    JavaScript strings are modelled as [string], one character per code
    unit, restricted to code units below 256. *)

From Stdlib Require Import Ascii String Arith Lia.
From stdpp Require Import gmap strings list.

(** ** Characters and string primitives *)

Definition dquote : ascii := "034"%char.
Definition backslash : ascii := "092"%char.
Definition newline : ascii := "010"%char.

Definition NL : string := String newline "".

(** [String.prototype.includes]: [includes s sub] is [s.includes(sub)]. *)
Fixpoint includes (s sub : string) : bool :=
  if String.prefix sub s then true
  else match s with
       | EmptyString => false
       | String _ r => includes r sub
       end.

(** White space as [String.prototype.trim] sees it, among the code units
    below 256: TAB, LF, VT, FF, CR, SPACE and NBSP. *)
Definition is_js_space (c : ascii) : bool :=
  let n := nat_of_ascii c in
  ((9 <=? n) && (n <=? 13)) || (n =? 32) || (n =? 160).

Fixpoint trim_start (s : string) : string :=
  match s with
  | String c r => if is_js_space c then trim_start r else s
  | EmptyString => EmptyString
  end.

Fixpoint trim_end (s : string) : string :=
  match s with
  | EmptyString => EmptyString
  | String c r =>
      match trim_end r with
      | EmptyString => if is_js_space c then EmptyString else String c EmptyString
      | r' => String c r'
      end
  end.

Definition trim (s : string) : string := trim_end (trim_start s).

(** JavaScript truthiness of an optional string ([undefined] and the empty
    string are falsy). *)
Definition truthy_string (o : option string) : bool :=
  match o with
  | Some s => negb (String.eqb s "")
  | None => false
  end.

Fixpoint join (sep : string) (l : list string) : string :=
  match l with
  | [] => ""
  | [x] => x
  | x :: r => x +:+ sep +:+ join sep r
  end.

(** ** JSON values and [JSON.stringify(value, null, 2)] *)

Local Set Warnings "-register-all".

Inductive JSON : Type :=
| JNull
| JBool (b : bool)
| JNumber (lexeme : string)
| JString (s : string)
| JArray (items : list JSON)
| JObject (members : list (string * JSON)).

Definition hex_digit (n : nat) : ascii :=
  match String.get n "0123456789abcdef" with
  | Some c => c
  | None => "0"%char
  end.

(** One code unit of [QuoteJSONString]. *)
Definition quote_char (c : ascii) : string :=
  let n := nat_of_ascii c in
  if n =? 8 then "\b"
  else if n =? 9 then "\t"
  else if n =? 10 then "\n"
  else if n =? 12 then "\f"
  else if n =? 13 then "\r"
  else if n =? 34 then String backslash (String dquote "")
  else if n =? 92 then "\\"
  else if n <? 32 then "\u00" +:+ String (hex_digit (n / 16)) (String (hex_digit (n mod 16)) "")
  else String c "".

Fixpoint quote_body (s : string) : string :=
  match s with
  | EmptyString => EmptyString
  | String c r => quote_char c +:+ quote_body r
  end.

Definition QuoteJSONString (s : string) : string :=
  String dquote (quote_body s +:+ String dquote "").

Definition gap : string := "  ".

(** [SerializeJSONProperty] with the current indentation; the gap is two
    spaces, so members are separated by a comma and a line break. *)
Fixpoint SerializeJSON (indent : string) (v : JSON) : string :=
  match v with
  | JNull => "null"
  | JBool true => "true"
  | JBool false => "false"
  | JNumber lexeme => lexeme
  | JString s => QuoteJSONString s
  | JArray items =>
      match items with
      | [] => "[]"
      | _ =>
          let stepback := indent in
          let indent := indent +:+ gap in
          "[" +:+ NL +:+ indent
          +:+ join ("," +:+ NL +:+ indent) (map (SerializeJSON indent) items)
          +:+ NL +:+ stepback +:+ "]"
      end
  | JObject members =>
      match members with
      | [] => "{}"
      | _ =>
          let stepback := indent in
          let indent := indent +:+ gap in
          "{" +:+ NL +:+ indent
          +:+ join ("," +:+ NL +:+ indent)
               (map (fun kv => QuoteJSONString (fst kv) +:+ ": " +:+ SerializeJSON indent (snd kv))
                    members)
          +:+ NL +:+ stepback +:+ "}"
      end
  end.

Definition JSON_stringify (v : JSON) : string := SerializeJSON "" v.

(** ** [JSON.parse] *)

Definition is_json_ws (c : ascii) : bool :=
  let n := nat_of_ascii c in
  (n =? 32) || (n =? 9) || (n =? 10) || (n =? 13).

Fixpoint skip_ws (s : string) : string :=
  match s with
  | String c r => if is_json_ws c then skip_ws r else s
  | EmptyString => EmptyString
  end.

Definition hex_value (c : ascii) : option nat :=
  let n := nat_of_ascii c in
  if (48 <=? n) && (n <=? 57) then Some (n - 48)
  else if (97 <=? n) && (n <=? 102) then Some (n - 87)
  else if (65 <=? n) && (n <=? 70) then Some (n - 55)
  else None.

Definition unescape (c : ascii) : option ascii :=
  let n := nat_of_ascii c in
  if n =? 34 then Some dquote
  else if n =? 92 then Some backslash
  else if n =? 47 then Some "/"%char
  else if n =? 98 then Some "008"%char
  else if n =? 102 then Some "012"%char
  else if n =? 110 then Some "010"%char
  else if n =? 114 then Some "013"%char
  else if n =? 116 then Some "009"%char
  else None.

(** The characters of a string literal after its opening quote, decoded,
    and the input that follows the closing quote.  A [\u] escape above
    code unit 255 has no counterpart in the string model and is refused. *)
Fixpoint parse_string_body (s : string) : option (string * string) :=
  match s with
  | EmptyString => None
  | String c r =>
      if nat_of_ascii c =? 34 then Some (EmptyString, r)
      else if nat_of_ascii c =? 92 then
        match r with
        | String e r1 =>
            if nat_of_ascii e =? 117 then
              match r1 with
              | String h1 (String h2 (String h3 (String h4 r2))) =>
                  match hex_value h1, hex_value h2, hex_value h3, hex_value h4 with
                  | Some 0, Some 0, Some a, Some b =>
                      match parse_string_body r2 with
                      | Some (t, rest) => Some (String (ascii_of_nat (16 * a + b)) t, rest)
                      | None => None
                      end
                  | _, _, _, _ => None
                  end
              | _ => None
              end
            else
              match unescape e with
              | Some d =>
                  match parse_string_body r1 with
                  | Some (t, rest) => Some (String d t, rest)
                  | None => None
                  end
              | None => None
              end
        | EmptyString => None
        end
      else if nat_of_ascii c <? 32 then None
      else
        match parse_string_body r with
        | Some (t, rest) => Some (String c t, rest)
        | None => None
        end
  end.

Definition is_digit (c : ascii) : bool :=
  (48 <=? nat_of_ascii c) && (nat_of_ascii c <=? 57).

Fixpoint take_digits (s : string) : string * string :=
  match s with
  | String c r =>
      if is_digit c then let '(d, rest) := take_digits r in (String c d, rest)
      else (EmptyString, s)
  | EmptyString => (EmptyString, EmptyString)
  end.

(** A number literal: sign, integer part without a leading zero, optional
    fraction, optional exponent.  The lexeme is kept as written. *)
Definition parse_number (s : string) : option (string * string) :=
  let '(sign, s1) :=
    match s with
    | String "-" r => ("-", r)
    | _ => ("", s)
    end in
  let '(int, s2) := take_digits s1 in
  match int with
  | EmptyString => None
  | String d more =>
      if (nat_of_ascii d =? 48) && negb (String.eqb more "") then None
      else
        let frac :=
          match s2 with
          | String "." r =>
              let '(f, s3) := take_digits r in
              if String.eqb f "" then None else Some ("." +:+ f, s3)
          | _ => Some ("", s2)
          end in
        match frac with
        | None => None
        | Some (f, s3) =>
            let expo :=
              match s3 with
              | String e r =>
                  if (nat_of_ascii e =? 101) || (nat_of_ascii e =? 69) then
                    let '(sg, r1) :=
                      match r with
                      | String "+" r' => ("+", r')
                      | String "-" r' => ("-", r')
                      | _ => ("", r)
                      end in
                    let '(x, s4) := take_digits r1 in
                    if String.eqb x "" then None else Some (String e (sg +:+ x), s4)
                  else Some ("", s3)
              | EmptyString => Some ("", s3)
              end in
            match expo with
            | None => None
            | Some (x, s4) => Some (sign +:+ int +:+ f +:+ x, s4)
            end
        end
  end.

Definition strip_prefix (p s : string) : option string :=
  if String.prefix p s then Some (String.substring (String.length p) (String.length s - String.length p) s)
  else None.

Fixpoint parse_value (fuel : nat) (s : string) : option (JSON * string) :=
  match fuel with
  | 0 => None
  | S fuel =>
      match skip_ws s with
      | EmptyString => None
      | String c r =>
          let n := nat_of_ascii c in
          if n =? 123 then
            match skip_ws r with
            | String "}" r1 => Some (JObject [], r1)
            | _ => match parse_members fuel r with
                   | Some (ms, rest) => Some (JObject ms, rest)
                   | None => None
                   end
            end
          else if n =? 91 then
            match skip_ws r with
            | String "]" r1 => Some (JArray [], r1)
            | _ => match parse_elements fuel r with
                   | Some (vs, rest) => Some (JArray vs, rest)
                   | None => None
                   end
            end
          else if n =? 34 then
            match parse_string_body r with
            | Some (t, rest) => Some (JString t, rest)
            | None => None
            end
          else if n =? 116 then
            match strip_prefix "rue" r with Some rest => Some (JBool true, rest) | None => None end
          else if n =? 102 then
            match strip_prefix "alse" r with Some rest => Some (JBool false, rest) | None => None end
          else if n =? 110 then
            match strip_prefix "ull" r with Some rest => Some (JNull, rest) | None => None end
          else if (n =? 45) || is_digit c then
            match parse_number (String c r) with
            | Some (lexeme, rest) => Some (JNumber lexeme, rest)
            | None => None
            end
          else None
      end
  end
with parse_elements (fuel : nat) (s : string) : option (list JSON * string) :=
  match fuel with
  | 0 => None
  | S fuel =>
      match parse_value fuel s with
      | Some (v, r) =>
          match skip_ws r with
          | String "," r1 =>
              match parse_elements fuel r1 with
              | Some (vs, rest) => Some (v :: vs, rest)
              | None => None
              end
          | String "]" r1 => Some ([v], r1)
          | _ => None
          end
      | None => None
      end
  end
with parse_members (fuel : nat) (s : string) : option (list (string * JSON) * string) :=
  match fuel with
  | 0 => None
  | S fuel =>
      match skip_ws s with
      | String c r =>
          if nat_of_ascii c =? 34 then
            match parse_string_body r with
            | Some (k, r1) =>
                match skip_ws r1 with
                | String ":" r2 =>
                    match parse_value fuel r2 with
                    | Some (v, r3) =>
                        match skip_ws r3 with
                        | String "," r4 =>
                            match parse_members fuel r4 with
                            | Some (ms, rest) => Some ((k, v) :: ms, rest)
                            | None => None
                            end
                        | String "}" r4 => Some ([(k, v)], r4)
                        | _ => None
                        end
                    | None => None
                    end
                | _ => None
                end
            | None => None
            end
          else None
      | EmptyString => None
      end
  end.

(** [JSON.parse]: one value, surrounded by optional white space; [None]
    stands for the [SyntaxError] it throws on any other text. *)
Definition JSON_parse (s : string) : option JSON :=
  match parse_value (2 * String.length s + 2) s with
  | Some (v, rest) => if String.eqb (skip_ws rest) "" then Some v else None
  | None => None
  end.

(** ** Measures and predicates on JSON values *)

Fixpoint all_spaces (s : string) : bool :=
  match s with
  | EmptyString => true
  | String c r => Ascii.eqb c " " && all_spaces r
  end.

(** The handlers serialise booleans, strings, arrays and objects only. *)
Fixpoint number_free (v : JSON) : bool :=
  match v with
  | JNumber _ => false
  | JArray items => forallb number_free items
  | JObject members => forallb (fun kv => number_free (snd kv)) members
  | _ => true
  end.

Fixpoint json_size (v : JSON) : nat :=
  match v with
  | JArray items => S (list_sum (map (fun x => S (json_size x)) items))
  | JObject members => S (list_sum (map (fun kv => S (json_size (snd kv))) members))
  | _ => 1
  end.

(** The first character of a serialised boolean, null, string, array or
    object. *)
Definition is_value_start (c : ascii) : bool :=
  let n := nat_of_ascii c in
  (n =? 123) || (n =? 91) || (n =? 34) || (n =? 116) || (n =? 102) || (n =? 110).

(** [v], serialised at any indentation and followed by any text, is
    parsed back with that text left over. *)
Definition round_trips (v : JSON) : Prop :=
  forall indent rest fuel,
    all_spaces indent = true -> json_size v <= fuel ->
    parse_value fuel (SerializeJSON indent v +:+ rest) = Some (v, rest).

Definition item_ok (x : JSON) : Prop := number_free x = true -> round_trips x.

Definition size_bounded (v : JSON) : Prop :=
  number_free v = true -> forall indent, json_size v <= String.length (SerializeJSON indent v).

(** Induction on JSON values with the hypothesis for every item of an
    array and every member of an object. *)
Definition JSON_nested_ind (P : JSON -> Prop)
    (HN : P JNull) (HB : forall b, P (JBool b)) (HL : forall l, P (JNumber l))
    (HS : forall s, P (JString s))
    (HA : forall items, Forall P items -> P (JArray items))
    (HO : forall members, Forall (fun kv => P (snd kv)) members -> P (JObject members)) :
  forall v, P v :=
  fix F (v : JSON) : P v :=
    match v with
    | JNull => HN
    | JBool b => HB b
    | JNumber l => HL l
    | JString s => HS s
    | JArray items =>
        HA items ((fix G (l : list JSON) : Forall P l :=
                     match l with
                     | [] => @List.Forall_nil _ P
                     | x :: r => @List.Forall_cons _ P x r (F x) (G r)
                     end) items)
    | JObject members =>
        HO members ((fix G (l : list (string * JSON)) : Forall (fun kv => P (snd kv)) l :=
                       match l with
                       | [] => @List.Forall_nil _ _
                       | kv :: r => @List.Forall_cons _ (fun kv => P (snd kv)) kv r (F (snd kv)) (G r)
                       end) members)
    end.

(** ** The host: file system, external commands, process information *)

(** The file system is a finite map from paths to nodes.  The name space
    is flat: the map does not say whether the parent of a path exists or
    may be written; what the host refuses for such reasons is
    [fs_refuses] below.  [File] is a regular file the process may read,
    append to and remove; [AppendOnly] is a regular file it may append
    to but neither read nor remove (an append-only file without read
    permission). *)
Inductive Node : Type :=
| File (content : string)
| Dir
| AppendOnly (content : string).

#[global] Instance Node_eq_dec : EqDecision Node.
Proof. solve_decision. Defined.

(** [outside] stands for everything beyond the file system that an
    external command may read or change. *)
Record World : Type := {
  nodes : gmap string Node;
  outside : nat
}.

(** What the promisified [child_process.exec] settles with: the captured
    output, or an [Error] and its message. *)
Inductive ExecOutcome : Type :=
| ExecOk (stdout stderr : string)
| ExecFail (message : string).

(** [ErrorCode] of the protocol SDK (the two members the server names). *)
Inductive ErrorCode : Type :=
| MethodNotFound
| InternalError.

(** Every call into the host is recorded. *)
Inductive Event : Type :=
| EvExec (command : string)
| EvAccess (path : string)
| EvMkdir (path : string)
| EvReadFile (path : string)
| EvAppendFile (path data : string)
| EvUnlink (path : string).

(** What the server takes from its platform and libraries: the [os] and
    [process.env] values, the [path] functions, the [message] the SDK's
    [McpError] constructor builds from a code and a text, the behaviour
    of shell commands, and [fs_refuses]: the message of the error with
    which the host refuses a write ([fs.mkdir], [fs.appendFile]) that
    the node map alone would allow (a missing parent directory, a
    directory or file that may not be written, a read-only or full file
    system). *)
Record Runtime : Type := {
  os_platform : string;
  os_arch : string;
  os_homedir : string;
  env_SHELL : option string;
  path_join : list string -> string;
  path_basename : string -> string;
  path_invalid_arg : string -> string;
  mcp_message : ErrorCode -> string -> string;
  exec_oracle : string -> World -> ExecOutcome * World;
  fs_refuses : World -> Event -> option string
}.

(** Thrown values; all of them are [Error] instances with a [message]. *)
Inductive Exn : Type :=
| JsError (message : string)
| JsTypeError (message : string)
| McpError (code : ErrorCode) (message : string).

(** [error instanceof Error ? error.message : String(error)] *)
Definition error_message (e : Exn) : string :=
  match e with
  | JsError m => m
  | JsTypeError m => m
  | McpError _ m => m
  end.

Record State : Type := {
  world : World;
  trace : list Event
}.

(** ** The monad of handlers: state and exceptions *)

Inductive Outcome (A : Type) : Type :=
| Return (a : A)
| Throw (e : Exn).

Arguments Return {A} a.
Arguments Throw {A} e.

Definition M (A : Type) : Type := State -> Outcome A * State.

Definition ret {A} (a : A) : M A := fun st => (Return a, st).

Definition throw {A} (e : Exn) : M A := fun st => (Throw e, st).

Definition bind {A B} (m : M A) (k : A -> M B) : M B :=
  fun st =>
    match m st with
    | (Return a, st') => k a st'
    | (Throw e, st') => (Throw e, st')
    end.

(** [try { m } catch (error) { h error }] *)
Definition try_catch {A} (m : M A) (h : Exn -> M A) : M A :=
  fun st =>
    match m st with
    | (Return a, st') => (Return a, st')
    | (Throw e, st') => h e st'
    end.

Declare Scope handler_scope.
Delimit Scope handler_scope with handler.
Notation "'let!' x ':=' m 'in' k" := (bind m (fun x => k))
  (at level 10, x name, m at level 100, k at level 200) : handler_scope.

Definition log (ev : Event) (st : State) : State :=
  {| world := world st; trace := trace st ++ [ev] |}.

Definition set_nodes (ns : gmap string Node) (st : State) : State :=
  {| world := {| nodes := ns; outside := outside (world st) |}; trace := trace st |}.

Definition errno (code what syscall path : string) : Exn :=
  JsError (code +:+ ": " +:+ what +:+ ", " +:+ syscall +:+ " '" +:+ path +:+ "'").

(** [fs.access(path)] *)
Definition fs_access (path : string) : M unit :=
  fun st =>
    let st := log (EvAccess path) st in
    match nodes (world st) !! path with
    | Some _ => (Return tt, st)
    | None => (Throw (errno "ENOENT" "no such file or directory" "access" path), st)
    end.

(** [fs.mkdir(path, { recursive: true })] *)
Definition fs_mkdir (rt : Runtime) (path : string) : M unit :=
  fun st =>
    let st := log (EvMkdir path) st in
    match nodes (world st) !! path with
    | Some (File _) | Some (AppendOnly _) =>
        (Throw (errno "EEXIST" "file already exists" "mkdir" path), st)
    | Some Dir => (Return tt, st)
    | None =>
        match fs_refuses rt (world st) (EvMkdir path) with
        | Some message => (Throw (JsError message), st)
        | None => (Return tt, set_nodes (<[path := Dir]> (nodes (world st))) st)
        end
    end.

(** [fs.readFile(path, 'utf-8')] *)
Definition fs_readFile (path : string) : M string :=
  fun st =>
    let st := log (EvReadFile path) st in
    match nodes (world st) !! path with
    | Some (File c) => (Return c, st)
    | Some Dir => (Throw (errno "EISDIR" "illegal operation on a directory" "read" path), st)
    | Some (AppendOnly _) => (Throw (errno "EACCES" "permission denied" "open" path), st)
    | None => (Throw (errno "ENOENT" "no such file or directory" "open" path), st)
    end.

(** [fs.appendFile(path, data)]: unless the host refuses the write, the
    data goes after the content of the file, which is created when
    absent. *)
Definition fs_appendFile (rt : Runtime) (path data : string) : M unit :=
  fun st =>
    let st := log (EvAppendFile path data) st in
    match nodes (world st) !! path with
    | Some Dir => (Throw (errno "EISDIR" "illegal operation on a directory" "open" path), st)
    | node =>
        match fs_refuses rt (world st) (EvAppendFile path data) with
        | Some message => (Throw (JsError message), st)
        | None =>
            let node' :=
              match node with
              | Some (AppendOnly c) => AppendOnly (c +:+ data)
              | Some (File c) => File (c +:+ data)
              | _ => File data
              end in
            (Return tt, set_nodes (<[path := node']> (nodes (world st))) st)
        end
    end.

(** [fs.unlink(path)] *)
Definition fs_unlink (path : string) : M unit :=
  fun st =>
    let st := log (EvUnlink path) st in
    match nodes (world st) !! path with
    | Some (File _) => (Return tt, set_nodes (delete path (nodes (world st))) st)
    | Some Dir => (Throw (errno "EISDIR" "illegal operation on a directory" "unlink" path), st)
    | Some (AppendOnly _) => (Throw (errno "EPERM" "operation not permitted" "unlink" path), st)
    | None => (Throw (errno "ENOENT" "no such file or directory" "unlink" path), st)
    end.

(** ** Tool results *)

Record ContentItem : Type := {
  type : string;
  text : string
}.

Record Response : Type := {
  content : list ContentItem
}.

Definition text_response (t : string) : Response :=
  {| content := [ {| type := "text"; text := t |} ] |}.

(** [{ content: [{ type: "text", text: JSON.stringify(v, null, 2) }] }] *)
Definition json_response (v : JSON) : Response :=
  text_response (JSON_stringify v).

(** ** The object literal [shellConfigs] and property lookup on it *)

Definition shellConfigs : list (string * string) :=
  [ ("bash", ".bashrc");
    ("zsh", ".zshrc");
    ("fish", ".config/fish/config.fish") ].

(** The properties every object literal inherits from [Object.prototype]. *)
Definition Object_prototype_keys : list string :=
  [ "constructor"; "__defineGetter__"; "__defineSetter__"; "hasOwnProperty";
    "__lookupGetter__"; "__lookupSetter__"; "isPrototypeOf";
    "propertyIsEnumerable"; "toString"; "valueOf"; "__proto__";
    "toLocaleString" ].

(** The value of [obj[key]] for an object literal with string members: an
    own member, else a member of [Object.prototype] (a function or, for
    [__proto__], the prototype object), else [undefined]. *)
Inductive Property : Type :=
| OwnString (s : string)
| Inherited (key : string)
| Undefined.

Fixpoint own_property (obj : list (string * string)) (key : string) : option string :=
  match obj with
  | [] => None
  | (k, v) :: r => if String.eqb k key then Some v else own_property r key
  end.

Definition get_property (obj : list (string * string)) (key : string) : Property :=
  match own_property obj key with
  | Some v => OwnString v
  | None => if bool_decide (key ∈ Object_prototype_keys) then Inherited key else Undefined
  end.

Definition truthy (p : Property) : bool :=
  match p with
  | OwnString s => negb (String.eqb s "")
  | Inherited _ => true
  | Undefined => false
  end.

(** [Object.keys(obj)] *)
Definition Object_keys (obj : list (string * string)) : list string := map fst obj.

(** ** The tool registry

    [setupToolHandlers] registers two request handlers: the one for
    [ListToolsRequestSchema], which returns the list below, and the one
    for [CallToolRequestSchema], the dispatcher [CallTool]. *)

Record Tool : Type := {
  tool_name : string;
  tool_description : string;
  tool_properties : list string
}.

Definition ListTools : list Tool :=
  [ {| tool_name := "check_compatibility";
       tool_description := "Check if the current system is compatible with Avalanche CLI";
       tool_properties := [] |};
    {| tool_name := "install_avalanche_cli";
       tool_description := "Install Avalanche CLI using the official installation script";
       tool_properties := ["force"] |};
    {| tool_name := "check_installation";
       tool_description := "Check if Avalanche CLI is installed and get version information";
       tool_properties := [] |};
    {| tool_name := "setup_path";
       tool_description := "Add Avalanche CLI to system PATH";
       tool_properties := ["shell"] |};
    {| tool_name := "get_installation_info";
       tool_description := "Get detailed installation information and instructions";
       tool_properties := [] |};
    {| tool_name := "update_avalanche_cli";
       tool_description := "Update Avalanche CLI to the latest version";
       tool_properties := [] |};
    {| tool_name := "build_from_source";
       tool_description := "Get instructions for building Avalanche CLI from source";
       tool_properties := ["tag"] |} ].

Definition registered_names : list string := map tool_name ListTools.

(** [request.params.arguments], with the three properties the handlers
    read, at the types the tool schemas and the handlers' signatures
    declare.  Of [force] the code uses the truthiness only
    ([args?.force || false], then [!force]), which is what the field
    holds for any value; [shell] and [tag] are strings or absent.  A
    request that carries another kind of value there (the arguments are
    not validated against the schema) is outside this type: the
    statements below about [setup_path] and [build_from_source] speak
    of string arguments only, those about the other five tools of any
    request, since their handlers read neither property. *)
Record ToolArgs : Type := {
  force : option bool;
  shell : option string;
  tag : option string
}.

Definition installCommand : string :=
  "curl -sSfL https://raw.githubusercontent.com/ava-labs/avalanche-cli/main/scripts/install.sh | sh -s".

Definition already_installed_text : string :=
  "Avalanche CLI is already installed. Use 'force: true' to reinstall or use the update tool.".

Definition unsupported_platform_text : string :=
  "Avalanche CLI is not supported on this platform. Only Linux and macOS are supported.".

(** The [steps] array of [getBuildFromSourceInfo]. *)
Definition build_steps (tag : option string) : list string :=
  [ "Clone the repository: git clone https://github.com/ava-labs/avalanche-cli.git";
    "Navigate to the directory: cd avalanche-cli";
    (if truthy_string tag
     then "Checkout specific tag: git checkout " +:+ default "" tag
     else "Checkout desired tag: git checkout <tag>");
    "Build the binary: ./scripts/build.sh";
    "Binary will be available at: ./bin/avalanche" ].

(** The [commands] array of [getBuildFromSourceInfo]. *)
Definition build_commands (tag : option string) : list string :=
  [ "git clone https://github.com/ava-labs/avalanche-cli.git";
    "cd avalanche-cli";
    (if truthy_string tag
     then "git checkout " +:+ default "" tag
     else "git checkout <desired-tag>");
    "./scripts/build.sh" ].

(** The text that follows the first [marker] in [s], if any. *)
Fixpoint after_marker (marker s : string) : option string :=
  if String.prefix marker s
  then Some (String.substring (String.length marker) (String.length s - String.length marker) s)
  else match s with
       | EmptyString => None
       | String _ r => after_marker marker r
       end.

(** The tag arguments of the entries of a list that run [git checkout]. *)
Definition checkout_tags (entries : list string) : list string :=
  omap (after_marker "git checkout ") entries.

Definition build_info (tag : option string) : JSON :=
  JObject
    [ ("title", JString "Building Avalanche CLI from Source");
      ("repository", JString "https://github.com/ava-labs/avalanche-cli");
      ("steps", JArray (map JString (build_steps tag)));
      ("commands", JArray (map JString (build_commands tag)));
      ("output", JObject
         [ ("binary_location", JString "./bin/avalanche");
           ("description", JString "The compiled binary will be named 'avalanche' in the bin directory") ]);
      ("note", JString "Building from source allows you to use specific versions or contribute to development") ].

Definition installation_info : JSON :=
  JObject
    [ ("title", JString "Avalanche CLI Installation Guide");
      ("compatibility", JObject
         [ ("supported_os", JArray [JString "Linux"; JString "macOS"]);
           ("unsupported_os", JArray [JString "Windows"]) ]);
      ("installation", JObject
         [ ("command", JString installCommand);
           ("install_location", JString "~/bin/avalanche");
           ("description", JString "Downloads and installs the latest binary release") ]);
      ("path_setup", JObject
         [ ("bash", JString "export PATH=~/bin:$PATH >> ~/.bashrc");
           ("zsh", JString "export PATH=~/bin:$PATH >> ~/.zshrc");
           ("fish", JString "set -gx PATH ~/bin $PATH >> ~/.config/fish/config.fish") ]);
      ("verification", JObject
         [ ("command", JString "avalanche --version");
           ("description", JString "Check installation and version") ]);
      ("updating", JObject
         [ ("method", JString "Delete current binary and reinstall");
           ("description", JString "No built-in update mechanism") ]);
      ("source_build", JObject
         [ ("repository", JString "https://github.com/ava-labs/avalanche-cli");
           ("build_script", JString "./scripts/build.sh");
           ("output_binary", JString "./bin/avalanche") ]) ].

(** The payload of the [catch (error)] blocks of the handlers. *)
Definition failure_payload (error : Exn) : JSON :=
  JObject [ ("success", JBool false); ("error", JString (error_message error)) ].

(** ** A concrete runtime

    The library functions as Node and the SDK provide them, on the inputs
    the server gives them, and hosts to run the handlers on. *)

(** [path.join] on segments that need no normalisation. *)
Definition posix_join (segments : list string) : string := join "/" segments.

Fixpoint last_segment (cur s : string) : string :=
  match s with
  | EmptyString => cur
  | String c r =>
      if Ascii.eqb c "/" then last_segment "" r
      else last_segment (cur +:+ String c "") r
  end.

(** [path.basename] on a path without a trailing separator. *)
Definition posix_basename (s : string) : string := last_segment "" s.

Definition quoted (s : string) : string := String dquote (s +:+ String dquote "").

(** The message of Node's [ERR_INVALID_ARG_TYPE] for [path.join]. *)
Definition node_invalid_arg (key : string) : string :=
  "The " +:+ quoted "path" +:+ " argument must be of type string. Received "
  +:+ (if String.eqb key "undefined" then "undefined"
       else if String.eqb key "__proto__" then "an instance of Object"
       else if String.eqb key "constructor" then "function Object"
       else "function " +:+ key).

(** The SDK's [McpError] constructor: [`MCP error ${code}: ${message}`]. *)
Definition sdk_message (code : ErrorCode) (message : string) : string :=
  "MCP error "
  +:+ match code with MethodNotFound => "-32601" | InternalError => "-32603" end
  +:+ ": " +:+ message.

(** A host where the tool is on the command path and the network is down:
    the probes answer, every other command fails. *)
Definition oracle_installed (command : string) (w : World) : ExecOutcome * World :=
  if String.eqb command "which avalanche" then
    (ExecOk ("/usr/local/bin/avalanche" +:+ NL) "", w)
  else if String.eqb command "avalanche --version" then
    (ExecOk ("avalanche version 1.8.4" +:+ NL) "", w)
  else (ExecFail ("Command failed: " +:+ command), w).

(** A host where no command succeeds. *)
Definition oracle_bare (command : string) (w : World) : ExecOutcome * World :=
  (ExecFail ("Command failed: " +:+ command), w).

Fixpoint dirname_from (dir cur s : string) : string :=
  match s with
  | EmptyString => dir
  | String c r =>
      if Ascii.eqb c "/" then dirname_from (dir +:+ cur) "/" r
      else dirname_from dir (cur +:+ String c "") r
  end.

(** [path.dirname] on an absolute path below the root. *)
Definition posix_dirname (s : string) : string := dirname_from "" "" s.

(** What the sample hosts refuse: creating a file whose parent
    directory is neither the home directory nor a directory of the node
    map ([ENOENT], as for [~/.config/fish/config.fish] on a home without
    [~/.config/fish]).  Directories are created with their parents. *)
Definition posix_refuses (w : World) (ev : Event) : option string :=
  match ev with
  | EvAppendFile path _ =>
      match nodes w !! path with
      | Some _ => None
      | None =>
          if String.eqb (posix_dirname path) "/home/ava" then None
          else match nodes w !! posix_dirname path with
               | Some Dir => None
               | Some _ => Some ("ENOTDIR: not a directory, open '" +:+ path +:+ "'")
               | None => Some ("ENOENT: no such file or directory, open '" +:+ path +:+ "'")
               end
      end
  | _ => None
  end.

Definition host (platform : string) (oracle : string -> World -> ExecOutcome * World) : Runtime :=
  {| os_platform := platform;
     os_arch := "x64";
     os_homedir := "/home/ava";
     env_SHELL := Some "/bin/zsh";
     path_join := posix_join;
     path_basename := posix_basename;
     path_invalid_arg := node_invalid_arg;
     mcp_message := sdk_message;
     exec_oracle := oracle;
     fs_refuses := posix_refuses |}.

(** The same host on a file system mounted read-only. *)
Definition read_only (rt : Runtime) : Runtime :=
  {| os_platform := os_platform rt;
     os_arch := os_arch rt;
     os_homedir := os_homedir rt;
     env_SHELL := env_SHELL rt;
     path_join := path_join rt;
     path_basename := path_basename rt;
     path_invalid_arg := path_invalid_arg rt;
     mcp_message := mcp_message rt;
     exec_oracle := exec_oracle rt;
     fs_refuses := fun _ _ => Some "EROFS: read-only file system" |}.

Definition fresh_home : State :=
  {| world := {| nodes := ∅; outside := 0 |}; trace := [] |}.

Definition home_with_binary : State :=
  {| world := {| nodes := {[ "/home/ava/bin" := Dir;
                             "/home/ava/bin/avalanche" := File "binary" ]};
                 outside := 0 |};
     trace := [] |}.

(** A host where the binary answers but is not on the command path. *)
Definition oracle_off_path (command : string) (w : World) : ExecOutcome * World :=
  if String.eqb command "avalanche --version" then
    (ExecOk ("avalanche version 1.8.4" +:+ NL) "", w)
  else (ExecFail ("Command failed: " +:+ command), w).

(** A host with a working network: the install script writes the binary
    under the home directory; the tool is not on the command path. *)
Definition oracle_online (command : string) (w : World) : ExecOutcome * World :=
  if String.eqb command installCommand then
    (ExecOk "avalanche-cli installed" "",
     {| nodes := <["/home/ava/bin/avalanche" := File "binary 1.8.5"]> (nodes w);
        outside := outside w |})
  else if String.eqb command "avalanche --version" then
    (ExecOk (" avalanche version 1.8.4" +:+ NL) "", w)
  else (ExecFail ("Command failed: " +:+ command), w).

Definition home_with_directory_as_binary : State :=
  {| world := {| nodes := {[ "/home/ava/bin" := Dir; "/home/ava/bin/avalanche" := Dir ]};
                 outside := 0 |};
     trace := [] |}.

Definition home_with_zshrc : State :=
  {| world := {| nodes := {[ "/home/ava/.zshrc" := File "export PATH=/home/ava/bin:$PATH" ]};
                 outside := 0 |};
     trace := [] |}.

Definition home_with_fish_directory : State :=
  {| world := {| nodes := {[ "/home/ava/.config" := Dir; "/home/ava/.config/fish" := Dir ]};
                 outside := 0 |};
     trace := [] |}.

Definition home_with_unreadable_bashrc : State :=
  {| world := {| nodes := {[ "/home/ava/.bashrc" := AppendOnly "alias ll='ls -l'" ]};
                 outside := 0 |};
     trace := [] |}.

Definition home_with_bashrc_directory : State :=
  {| world := {| nodes := {[ "/home/ava/.bashrc" := Dir ]}; outside := 0 |};
     trace := [] |}.

(** A response whose text is [JSON.stringify] of a value. *)
Definition structured (r : Response) : Prop :=
  exists v, number_free v = true /\ r = json_response v.

(** Case analysis on every branch a handler takes. *)
Ltac split_handler H :=
  repeat (
    cbn [ret throw fst snd world trace log set_nodes] in H;
    match type of H with
    | context [match ?x with _ => _ end] =>
        lazymatch x with
        | context [match _ with _ => _ end] => fail
        | _ => destruct x eqn:?
        end
    end).

Ltac structured_payload :=
  eexists; split; [| reflexivity]; reflexivity.

Section Server.

Variable rt : Runtime.

Local Open Scope handler_scope.

(** [execAsync(command)] *)
Definition execAsync (command : string) : M (string * string) :=
  fun st =>
    let '(outcome, w) := exec_oracle rt command (world st) in
    let st' := {| world := w; trace := trace st ++ [EvExec command] |} in
    match outcome with
    | ExecOk stdout stderr => (Return (stdout, stderr), st')
    | ExecFail message => (Throw (JsError message), st')
    end.

(** [path.join(homeDir, configFile)] where [configFile] was read from
    [shellConfigs]: [path.join] raises a [TypeError] on an argument that
    is not a string. *)
Definition path_join_property (dir : string) (p : Property) : M string :=
  match p with
  | OwnString s => ret (path_join rt [dir; s])
  | Inherited key => throw (JsTypeError (path_invalid_arg rt key))
  | Undefined => throw (JsTypeError (path_invalid_arg rt "undefined"))
  end.

Definition checkCompatibility : M Response :=
  let platform := os_platform rt in
  let arch := os_arch rt in
  let isCompatible := String.eqb platform "linux" || String.eqb platform "darwin" in
  ret (json_response (JObject
    [ ("compatible", JBool isCompatible);
      ("platform", JString platform);
      ("architecture", JString arch);
      ("message", JString
         (if isCompatible
          then "Your system is compatible with Avalanche CLI"
          else "Avalanche CLI currently supports Linux and macOS only. Windows is not supported.")) ])).

Definition installAvalancheCLI (force : bool) : M Response :=
  try_catch
    (let platform := os_platform rt in
     let! _ := (if negb (String.eqb platform "linux") && negb (String.eqb platform "darwin")
         then throw (JsError unsupported_platform_text)
         else ret tt) in
     let! early := (if negb force
               then try_catch
                      (let! _ := execAsync "which avalanche" in
                       ret (Some (text_response already_installed_text)))
                      (fun _ => ret None)
               else ret None) in
     match early with
     | Some response => ret response
     | None =>
         let homeDir := os_homedir rt in
         let binDir := path_join rt [homeDir; "bin"] in
         let! _ := try_catch (fs_access binDir) (fun _ => fs_mkdir rt binDir) in
         let! out := execAsync installCommand in
         ret (json_response (JObject
           [ ("success", JBool true);
             ("message", JString "Avalanche CLI installed successfully");
             ("stdout", JString (fst out));
             ("stderr", JString (snd out));
             ("next_steps", JArray
                [ JString "Add ~/bin to your PATH if not already done";
                  JString "Run 'avalanche --version' to verify installation" ]) ]))
     end)
    (fun error => ret (json_response (failure_payload error))).

Definition checkInstallation : M Response :=
  try_catch
    (let! version := execAsync "avalanche --version" in
     let! which := execAsync "which avalanche" in
     ret (json_response (JObject
       [ ("installed", JBool true);
         ("version", JString (trim (fst version)));
         ("path", JString (trim (fst which))) ])))
    (fun _ =>
       ret (json_response (JObject
         [ ("installed", JBool false);
           ("error", JString "Avalanche CLI not found in PATH");
           ("suggestion", JString "Run the install_avalanche_cli tool to install it") ]))).

(** [shell] after the detection step: the argument when truthy, else
    the last segment of [process.env.SHELL || 'bash']. *)
Definition effective_shell (shell : option string) : string :=
  if truthy_string shell then default "" shell
  else path_basename rt (if truthy_string (env_SHELL rt) then default "" (env_SHELL rt) else "bash").

Definition exportLine_of (shell : string) : string :=
  if String.eqb shell "fish" then "set -gx PATH ~/bin $PATH" else "export PATH=~/bin:$PATH".

Definition setupPath (shell : option string) : M Response :=
  let homeDir := os_homedir rt in
  let binPath := path_join rt [homeDir; "bin"] in
  let shell := effective_shell shell in
  let configFile := get_property shellConfigs shell in
  if negb (truthy configFile) then
    ret (json_response (JObject
      [ ("success", JBool false);
        ("error", JString ("Unsupported shell: " +:+ shell));
        ("supported_shells", JArray (map JString (Object_keys shellConfigs))) ]))
  else
    let! configPath := path_join_property homeDir configFile in
    let exportLine := exportLine_of shell in
    try_catch
      (let! configContent := try_catch (fs_readFile configPath) (fun _ => ret "") in
       if includes configContent "~/bin" || includes configContent binPath then
         ret (json_response (JObject
           [ ("success", JBool true);
             ("message", JString "PATH already contains ~/bin directory");
             ("current_config", JString configPath) ]))
       else
         let! _ := fs_appendFile rt configPath
              (NL +:+ "# Added by Avalanche CLI MCP Server" +:+ NL +:+ exportLine +:+ NL) in
         ret (json_response (JObject
           [ ("success", JBool true);
             ("message", JString ("Added ~/bin to PATH in " +:+ configPath));
             ("instruction", JString
                ("Restart your terminal or run 'source " +:+ configPath +:+ "' to apply changes"));
             ("added_line", JString exportLine) ])))
      (fun error => ret (json_response (failure_payload error))).

Definition getInstallationInfo : M Response :=
  ret (json_response installation_info).

(** [execAsync('avalanche --version')], trimmed, or ['unknown']. *)
Definition probe_version : M string :=
  try_catch (let! out := execAsync "avalanche --version" in ret (trim (fst out)))
            (fun _ => ret "unknown").

Definition updateAvalancheCLI : M Response :=
  try_catch
    (let homeDir := os_homedir rt in
     let binPath := path_join rt [homeDir; "bin"; "avalanche"] in
     let! early := try_catch
                (let! _ := fs_access binPath in ret None)
                (fun _ => ret (Some (json_response (JObject
                   [ ("success", JBool false);
                     ("error", JString "Avalanche CLI not found at ~/bin/avalanche");
                     ("suggestion", JString "Use install_avalanche_cli tool to install it first") ])))) in
     match early with
     | Some response => ret response
     | None =>
         let! currentVersion := probe_version in
         let! _ := fs_unlink binPath in
         let! out := execAsync installCommand in
         let! newVersion := probe_version in
         ret (json_response (JObject
           [ ("success", JBool true);
             ("message", JString "Avalanche CLI updated successfully");
             ("previous_version", JString currentVersion);
             ("new_version", JString newVersion);
             ("stdout", JString (fst out));
             ("stderr", JString (snd out)) ]))
     end)
    (fun error => ret (json_response (failure_payload error))).

Definition getBuildFromSourceInfo (tag : option string) : M Response :=
  ret (json_response (build_info tag)).

(** [new McpError(code, message)] *)
Definition new_McpError (code : ErrorCode) (message : string) : Exn :=
  McpError code (mcp_message rt code message).

(** The [CallToolRequestSchema] handler of [setupToolHandlers]: the
    [switch] on the tool name inside [try], and the [catch] that wraps
    whatever was thrown. *)
Definition CallTool (name : string) (args : option ToolArgs) : M Response :=
  try_catch
    (if String.eqb name "check_compatibility" then checkCompatibility
     else if String.eqb name "install_avalanche_cli" then
       installAvalancheCLI (default false (args ≫= force))
     else if String.eqb name "check_installation" then checkInstallation
     else if String.eqb name "setup_path" then setupPath (args ≫= shell)
     else if String.eqb name "get_installation_info" then getInstallationInfo
     else if String.eqb name "update_avalanche_cli" then updateAvalancheCLI
     else if String.eqb name "build_from_source" then getBuildFromSourceInfo (args ≫= tag)
     else throw (new_McpError MethodNotFound ("Unknown tool: " +:+ name)))
    (fun error => throw (new_McpError InternalError (error_message error))).

(** ** Properties of the handlers *)

Definition supported_platform (platform : string) : Prop :=
  platform = "linux" \/ platform = "darwin".

(** The fixed paths under the home directory. *)
Definition binDir : string := path_join rt [os_homedir rt; "bin"].
Definition binaryPath : string := path_join rt [os_homedir rt; "bin"; "avalanche"].

Definition not_found_payload : JSON :=
  JObject
    [ ("success", JBool false);
      ("error", JString "Avalanche CLI not found at ~/bin/avalanche");
      ("suggestion", JString "Use install_avalanche_cli tool to install it first") ].

Definition compatibility_payload (compatible : bool) : JSON :=
  JObject
    [ ("compatible", JBool compatible);
      ("platform", JString (os_platform rt));
      ("architecture", JString (os_arch rt));
      ("message", JString
         (if compatible
          then "Your system is compatible with Avalanche CLI"
          else "Avalanche CLI currently supports Linux and macOS only. Windows is not supported.")) ].

Definition without_binary (w : World) : World :=
  {| nodes := delete binaryPath (nodes w); outside := outside w |}.

Definition payload_texts (r : Response) : list string := map text (content r).

(** The configuration file of a shell, under the home directory. *)
Definition config_path (shell : string) : string :=
  path_join rt [os_homedir rt; default "" (own_property shellConfigs shell)].

(** The block [setupPath] appends. *)
Definition path_block (exportLine : string) : string :=
  NL +:+ "# Added by Avalanche CLI MCP Server" +:+ NL +:+ exportLine +:+ NL.

Definition has_bin_reference (configContent : string) : bool :=
  includes configContent "~/bin" || includes configContent binDir.

Definition already_payload (configPath : string) : JSON :=
  JObject
    [ ("success", JBool true);
      ("message", JString "PATH already contains ~/bin directory");
      ("current_config", JString configPath) ].

Definition added_payload (configPath exportLine : string) : JSON :=
  JObject
    [ ("success", JBool true);
      ("message", JString ("Added ~/bin to PATH in " +:+ configPath));
      ("instruction", JString
         ("Restart your terminal or run 'source " +:+ configPath +:+ "' to apply changes"));
      ("added_line", JString exportLine) ].

Definition unsupported_shell_payload (shell : string) : JSON :=
  JObject
    [ ("success", JBool false);
      ("error", JString ("Unsupported shell: " +:+ shell));
      ("supported_shells", JArray [JString "bash"; JString "zsh"; JString "fish"]) ].

(** The [try] block of [setupPath], once the configuration file and
    the export line are known. *)
Definition write_config (configPath exportLine : string) : M Response :=
  try_catch
    (let! configContent := try_catch (fs_readFile configPath) (fun _ => ret "") in
     if has_bin_reference configContent then
       ret (json_response (already_payload configPath))
     else
       let! _ := fs_appendFile rt configPath (path_block exportLine) in
       ret (json_response (added_payload configPath exportLine)))
    (fun error => ret (json_response (failure_payload error))).

(** What [setupPath] takes as the content of the configuration file. *)
Definition read_or_empty (configPath : string) (st : State) : string :=
  match nodes (world st) !! configPath with
  | Some (File c) => c
  | _ => ""
  end.

(** The payloads of [checkInstallation]. *)
Definition installed_payload (versionOutput whichOutput : string) : JSON :=
  JObject
    [ ("installed", JBool true);
      ("version", JString (trim versionOutput));
      ("path", JString (trim whichOutput)) ].

Definition not_installed_payload : JSON :=
  JObject
    [ ("installed", JBool false);
      ("error", JString "Avalanche CLI not found in PATH");
      ("suggestion", JString "Run the install_avalanche_cli tool to install it") ].

(** What [installAvalancheCLI] answers once the install script has
    settled. *)
Definition install_success_payload (stdout stderr : string) : JSON :=
  JObject
    [ ("success", JBool true);
      ("message", JString "Avalanche CLI installed successfully");
      ("stdout", JString stdout);
      ("stderr", JString stderr);
      ("next_steps", JArray
         [ JString "Add ~/bin to your PATH if not already done";
           JString "Run 'avalanche --version' to verify installation" ]) ].

Definition install_outcome_payload (outcome : ExecOutcome) : JSON :=
  match outcome with
  | ExecOk stdout stderr => install_success_payload stdout stderr
  | ExecFail message => failure_payload (JsError message)
  end.

(** The state once [~/bin] has been checked and, when absent, created. *)
Definition bin_dir_ensured (st : State) : State :=
  match nodes (world st) !! binDir with
  | Some _ => log (EvAccess binDir) st
  | None =>
      set_nodes (<[binDir := Dir]> (nodes (world st)))
                (log (EvMkdir binDir) (log (EvAccess binDir) st))
  end.

(** The version string [updateAvalancheCLI] records for a probe. *)
Definition version_of (probe : ExecOutcome) : string :=
  match probe with
  | ExecOk stdout _ => trim stdout
  | ExecFail _ => "unknown"
  end.

Definition update_success_payload (currentVersion newVersion stdout stderr : string) : JSON :=
  JObject
    [ ("success", JBool true);
      ("message", JString "Avalanche CLI updated successfully");
      ("previous_version", JString currentVersion);
      ("new_version", JString newVersion);
      ("stdout", JString stdout);
      ("stderr", JString stderr) ].

(** The calls [updateAvalancheCLI] makes into the host when every step
    succeeds. *)
Definition update_calls : list Event :=
  [ EvAccess binaryPath; EvExec "avalanche --version"; EvUnlink binaryPath;
    EvExec installCommand; EvExec "avalanche --version" ].

(** The sequences of host calls [installAvalancheCLI] can make. *)
Definition install_calls : list (list Event) :=
  [ [];
    [EvExec "which avalanche"];
    [EvExec "which avalanche"; EvAccess binDir; EvExec installCommand];
    [EvExec "which avalanche"; EvAccess binDir; EvMkdir binDir];
    [EvExec "which avalanche"; EvAccess binDir; EvMkdir binDir; EvExec installCommand];
    [EvAccess binDir; EvExec installCommand];
    [EvAccess binDir; EvMkdir binDir];
    [EvAccess binDir; EvMkdir binDir; EvExec installCommand] ].

(** The sequences of host calls [setupPath] can make, for a shell. *)
Definition setup_calls (shell : string) : list (list Event) :=
  [ [];
    [EvReadFile (config_path shell)];
    [EvReadFile (config_path shell);
     EvAppendFile (config_path shell) (path_block (exportLine_of shell))] ].

Lemma platform_gate_supported :
  supported_platform (os_platform rt) ->
  negb (String.eqb (os_platform rt) "linux") && negb (String.eqb (os_platform rt) "darwin") = false.
Proof.
  intros [H | H]; rewrite H; reflexivity.
Qed.

Lemma platform_gate_unsupported :
  ~ supported_platform (os_platform rt) ->
  negb (String.eqb (os_platform rt) "linux") && negb (String.eqb (os_platform rt) "darwin") = true.
Proof.
  intros H.
  destruct (String.eqb_spec (os_platform rt) "linux") as [E | _].
  { exfalso. apply H. left. exact E. }
  destruct (String.eqb_spec (os_platform rt) "darwin") as [E | _].
  { exfalso. apply H. right. exact E. }
  reflexivity.
Qed.

(** C4: [check_compatibility] returns for every platform and
    architecture, leaves the host untouched, and reports
    [compatible: true] exactly on the platforms [linux] and [darwin];
    the dispatcher hands the same payload on. *)
Theorem checkCompatibility_total (args : option ToolArgs) (st : State) :
  exists compatible : bool,
    checkCompatibility st = (Return (json_response (compatibility_payload compatible)), st)
    /\ CallTool "check_compatibility" args st
       = (Return (json_response (compatibility_payload compatible)), st)
    /\ (compatible = true <-> supported_platform (os_platform rt)).
Proof.
  exists (String.eqb (os_platform rt) "linux" || String.eqb (os_platform rt) "darwin").
  split; [reflexivity | split; [reflexivity |]].
  unfold supported_platform.
  rewrite orb_true_iff, !String.eqb_eq. tauto.
Qed.

(** C8: on a platform other than [linux] and [darwin], [install]
    returns the [success: false] payload that says the platform is not
    supported, the dispatcher returns that payload instead of raising
    an error, and the host is left as it was: nothing is recorded in
    the trace, so no directory was created and no command was run. *)
Theorem install_unsupported_platform (args : option ToolArgs) (st : State) :
  ~ supported_platform (os_platform rt) ->
  installAvalancheCLI (default false (args ≫= force)) st
  = (Return (json_response (JObject
       [ ("success", JBool false); ("error", JString unsupported_platform_text) ])), st)
  /\ CallTool "install_avalanche_cli" args st
     = (Return (json_response (JObject
          [ ("success", JBool false); ("error", JString unsupported_platform_text) ])), st).
Proof.
  intros H.
  assert (E : forall f, installAvalancheCLI f st
              = (Return (json_response (JObject
                   [ ("success", JBool false); ("error", JString unsupported_platform_text) ])), st)).
  { intros f. unfold installAvalancheCLI, try_catch, bind.
    rewrite (platform_gate_unsupported H). reflexivity. }
  split; [apply E |].
  unfold CallTool, try_catch. cbn [String.eqb Ascii.eqb Bool.eqb].
  rewrite E. reflexivity.
Qed.

(** C9: when nothing exists at the binary's path, [update] returns the
    [success: false] payload with the not-found message and the
    suggestion to install first; its only call into the host is the
    existence check, so nothing is deleted, no command is run and the
    world is unchanged. *)
Theorem update_binary_absent (st : State) :
  nodes (world st) !! binaryPath = None ->
  updateAvalancheCLI st = (Return (json_response not_found_payload), log (EvAccess binaryPath) st)
  /\ world (log (EvAccess binaryPath) st) = world st
  /\ trace (log (EvAccess binaryPath) st) = trace st ++ [EvAccess binaryPath].
Proof.
  intros H. split; [| split; reflexivity].
  unfold updateAvalancheCLI, try_catch, bind, fs_access.
  fold binaryPath. cbn [world log]. rewrite H. reflexivity.
Qed.

Lemma execAsync_ok {command : string} {st : State} {stdout stderr : string} {w : World} :
  exec_oracle rt command (world st) = (ExecOk stdout stderr, w) ->
  execAsync command st
  = (Return (stdout, stderr), {| world := w; trace := trace st ++ [EvExec command] |}).
Proof.
  intros H. unfold execAsync. rewrite H. reflexivity.
Qed.

Lemma execAsync_fail {command : string} {st : State} {message : string} {w : World} :
  exec_oracle rt command (world st) = (ExecFail message, w) ->
  execAsync command st
  = (Throw (JsError message), {| world := w; trace := trace st ++ [EvExec command] |}).
Proof.
  intros H. unfold execAsync. rewrite H. reflexivity.
Qed.

Lemma install_probe_found {st : State} {stdout stderr : string} {w : World} :
  supported_platform (os_platform rt) ->
  exec_oracle rt "which avalanche" (world st) = (ExecOk stdout stderr, w) ->
  installAvalancheCLI false st
  = (Return (text_response already_installed_text),
     {| world := w; trace := trace st ++ [EvExec "which avalanche"] |}).
Proof.
  intros Hp Hw.
  unfold installAvalancheCLI, try_catch, bind.
  rewrite (platform_gate_supported Hp).
  cbn [negb ret]. rewrite (execAsync_ok Hw). reflexivity.
Qed.

(** C7, amended: on a supported platform, with [force] false and
    [which avalanche] succeeding, [install] returns the advice to use
    [force] or the update tool, and its only call into the host is that
    probe: no directory is created and the install script is not run. *)
Theorem install_short_circuit (st : State) (stdout stderr : string) (w : World) :
  supported_platform (os_platform rt) ->
  exec_oracle rt "which avalanche" (world st) = (ExecOk stdout stderr, w) ->
  installAvalancheCLI false st
  = (Return (text_response already_installed_text),
     {| world := w; trace := trace st ++ [EvExec "which avalanche"] |})
  /\ (EvMkdir binDir ∉ [EvExec "which avalanche"])
  /\ (EvExec installCommand ∉ [EvExec "which avalanche"]).
Proof.
  intros Hp Hw. split; [exact (install_probe_found Hp Hw) |].
  split; intros H; apply list_elem_of_singleton in H; discriminate H.
Qed.

(** C2 at the failing input: on a supported platform, when [force] is
    not set and [which avalanche] succeeds, the dispatcher returns one
    text item whose text is the bare sentence, and [JSON.parse] rejects
    that text. *)
Theorem install_short_circuit_not_json
    (args : option ToolArgs) (st : State) (stdout stderr : string) (w : World) :
  supported_platform (os_platform rt) ->
  default false (args ≫= force) = false ->
  exec_oracle rt "which avalanche" (world st) = (ExecOk stdout stderr, w) ->
  exists r : Response,
    fst (CallTool "install_avalanche_cli" args st) = Return r
    /\ payload_texts r = [already_installed_text]
    /\ JSON_parse already_installed_text = None.
Proof.
  intros Hp Hf Hw. exists (text_response already_installed_text).
  split; [| split; [reflexivity | vm_compute; reflexivity]].
  unfold CallTool, try_catch. cbn [String.eqb Ascii.eqb Bool.eqb].
  rewrite Hf, (install_probe_found Hp Hw). reflexivity.
Qed.

Lemma unregistered_name (name : string) :
  name ∉ registered_names ->
  String.eqb name "check_compatibility" = false
  /\ String.eqb name "install_avalanche_cli" = false
  /\ String.eqb name "check_installation" = false
  /\ String.eqb name "setup_path" = false
  /\ String.eqb name "get_installation_info" = false
  /\ String.eqb name "update_avalanche_cli" = false
  /\ String.eqb name "build_from_source" = false.
Proof.
  unfold registered_names, ListTools. cbn [map tool_name].
  rewrite !not_elem_of_cons. rewrite <- !String.eqb_neq. tauto.
Qed.

(** C1 at every failing input: for a name outside the registry the
    dispatcher builds the method-not-found error carrying the name,
    catches it in its own [catch] block and raises an error of kind
    [InternalError] whose text is the message of the first; the host
    is untouched.  No error of kind [MethodNotFound] reaches the
    caller. *)
Theorem unknown_tool_internal_error (name : string) (args : option ToolArgs) (st : State) :
  name ∉ registered_names ->
  CallTool name args st
  = (Throw (McpError InternalError
              (mcp_message rt InternalError
                 (mcp_message rt MethodNotFound ("Unknown tool: " +:+ name)))), st)
  /\ forall message, fst (CallTool name args st) <> Throw (McpError MethodNotFound message).
Proof.
  intros H. destruct (unregistered_name name H) as (H1 & H2 & H3 & H4 & H5 & H6 & H7).
  assert (E : CallTool name args st
              = (Throw (McpError InternalError
                   (mcp_message rt InternalError
                      (mcp_message rt MethodNotFound ("Unknown tool: " +:+ name)))), st)).
  { unfold CallTool, try_catch. rewrite H1, H2, H3, H4, H5, H6, H7. reflexivity. }
  split; [exact E |]. intros message. rewrite E. cbn [fst]. discriminate.
Qed.

Lemma probe_version_returns (st : State) :
  exists v, probe_version st
            = (Return v, {| world := snd (exec_oracle rt "avalanche --version" (world st));
                            trace := trace st ++ [EvExec "avalanche --version"] |}).
Proof.
  unfold probe_version, try_catch, bind, execAsync.
  destruct (exec_oracle rt "avalanche --version" (world st)) as [[out err | msg] w];
    eexists; reflexivity.
Qed.

(** C10: when the binary exists, is still a file once the version probe
    has run, and the install script then fails, [update] returns the
    [success: false] payload with the script's error; the binary was
    unlinked before the script started, the failing script is the last
    call into the host, and the final world is the one the script left:
    nothing puts the binary back. *)
Theorem update_not_atomic
    (st : State) (probe : ExecOutcome) (w1 w3 : World) (binary message : string) :
  is_Some (nodes (world st) !! binaryPath) ->
  exec_oracle rt "avalanche --version" (world st) = (probe, w1) ->
  nodes w1 !! binaryPath = Some (File binary) ->
  exec_oracle rt installCommand (without_binary w1) = (ExecFail message, w3) ->
  updateAvalancheCLI st
  = (Return (json_response (failure_payload (JsError message))),
     {| world := w3;
        trace := trace st ++ [ EvAccess binaryPath; EvExec "avalanche --version";
                               EvUnlink binaryPath; EvExec installCommand ] |})
  /\ nodes (without_binary w1) !! binaryPath = None
  /\ (nodes w3 = nodes (without_binary w1) ->
      nodes (world (snd (updateAvalancheCLI st))) !! binaryPath = None).
Proof.
  intros [n Hn] Hprobe Hfile Hinstall.
  assert (Hgone : nodes (without_binary w1) !! binaryPath = None).
  { unfold without_binary. cbn [nodes]. apply lookup_delete_eq. }
  assert (E : updateAvalancheCLI st
              = (Return (json_response (failure_payload (JsError message))),
                 {| world := w3;
                    trace := trace st ++ [ EvAccess binaryPath; EvExec "avalanche --version";
                                           EvUnlink binaryPath; EvExec installCommand ] |})).
  { unfold updateAvalancheCLI, try_catch at 1, bind at 1.
    fold binaryPath.
    unfold try_catch at 1, bind at 1, fs_access. cbn [world log]. rewrite Hn.
    cbn [ret]. unfold bind at 1.
    destruct (probe_version_returns (log (EvAccess binaryPath) st)) as [v Hv].
    rewrite Hv. cbn [world log trace]. rewrite Hprobe. cbn [snd].
    unfold bind at 1, fs_unlink. cbn [world log trace]. rewrite Hfile.
    unfold bind at 1, set_nodes, execAsync. cbn [world log trace outside].
    unfold without_binary in Hinstall. rewrite Hinstall.
    rewrite <- !app_assoc. reflexivity. }
  split; [exact E |]. split; [exact Hgone |].
  intros Hsame. rewrite E. cbn [snd world]. rewrite Hsame. exact Hgone.
Qed.

(** *** [setup_path] *)

Lemma setupPath_unsupported_shell (shell : option string) (st : State) :
  effective_shell shell ∉ Object_keys shellConfigs ->
  effective_shell shell ∉ Object_prototype_keys ->
  setupPath shell st
  = (Return (json_response (unsupported_shell_payload (effective_shell shell))), st).
Proof.
  intros Hown Hproto. unfold setupPath.
  assert (E : get_property shellConfigs (effective_shell shell) = Undefined).
  { unfold get_property.
    rewrite (bool_decide_eq_false_2 _ Hproto).
    revert Hown. unfold Object_keys, shellConfigs. cbn [map fst own_property].
    rewrite !not_elem_of_cons.
    intros (H1 & H2 & H3 & _).
    apply not_eq_sym, String.eqb_neq in H1, H2, H3.
    rewrite H1, H2, H3. reflexivity. }
  rewrite E. reflexivity.
Qed.

(** C6 at the failing input: for the shell name [constructor], which
    is outside the supported set, the lookup in [shellConfigs] finds the
    member inherited from [Object.prototype], the unsupported-shell
    payload is skipped, [path.join] raises a [TypeError] outside the
    [try] block, and the dispatcher turns it into an error of kind
    [InternalError]; no file is read or written. *)
Theorem setupPath_inherited_name_throws (st : State) :
  get_property shellConfigs "constructor" = Inherited "constructor"
  /\ setupPath (Some "constructor") st
     = (Throw (JsTypeError (path_invalid_arg rt "constructor")), st)
  /\ CallTool "setup_path" (Some {| force := None; shell := Some "constructor"; tag := None |}) st
     = (Throw (McpError InternalError
                 (mcp_message rt InternalError (path_invalid_arg rt "constructor"))), st).
Proof.
  split; [vm_compute; reflexivity |]. split; reflexivity.
Qed.

Lemma includes_app_r (a b sub : string) :
  includes b sub = true -> includes (a +:+ b) sub = true.
Proof.
  intros H. induction a as [| c a IH]; [exact H |].
  change (String c a +:+ b) with (String c (a +:+ b)).
  change (includes (String c (a +:+ b)) sub)
    with (if String.prefix sub (String c (a +:+ b)) then true else includes (a +:+ b) sub).
  destruct (String.prefix sub (String c (a +:+ b))); [reflexivity | exact IH].
Qed.

Lemma path_block_has_reference (configContent shell : string) :
  has_bin_reference (configContent +:+ path_block (exportLine_of shell)) = true.
Proof.
  unfold has_bin_reference. apply orb_true_intro. left.
  apply includes_app_r. unfold exportLine_of.
  destruct (String.eqb shell "fish"); vm_compute; reflexivity.
Qed.

Lemma setupPath_supported (shell : option string) :
  effective_shell shell ∈ Object_keys shellConfigs ->
  setupPath shell
  = write_config (config_path (effective_shell shell)) (exportLine_of (effective_shell shell)).
Proof.
  unfold Object_keys, shellConfigs. cbn [map fst].
  rewrite !elem_of_cons, elem_of_nil.
  unfold setupPath, config_path.
  intros [H | [H | [H | []]]]; rewrite H; reflexivity.
Qed.

Lemma write_config_skip (configPath exportLine : string) (st : State) :
  has_bin_reference (read_or_empty configPath st) = true ->
  write_config configPath exportLine st
  = (Return (json_response (already_payload configPath)), log (EvReadFile configPath) st).
Proof.
  unfold read_or_empty, write_config, try_catch, bind, fs_readFile. cbn [world log].
  destruct (nodes (world st) !! configPath) as [[c | | c] |]; intros H; cbn [ret]; rewrite H;
    reflexivity.
Qed.

Lemma write_config_append (configPath exportLine : string) (st : State) :
  has_bin_reference (read_or_empty configPath st) = false ->
  nodes (world st) !! configPath <> Some Dir ->
  (forall c, nodes (world st) !! configPath <> Some (AppendOnly c)) ->
  fs_refuses rt (world st) (EvAppendFile configPath (path_block exportLine)) = None ->
  write_config configPath exportLine st
  = (Return (json_response (added_payload configPath exportLine)),
     set_nodes (<[configPath := File (read_or_empty configPath st +:+ path_block exportLine)]>
                  (nodes (world st)))
               (log (EvAppendFile configPath (path_block exportLine))
                    (log (EvReadFile configPath) st))).
Proof.
  unfold read_or_empty, write_config, try_catch, bind, fs_readFile, fs_appendFile.
  cbn [world log].
  destruct (nodes (world st) !! configPath) as [[c | | c] |] eqn:E; intros H Hd Ha Hr;
    [| congruence | exfalso; exact (Ha c eq_refl) |];
    cbn [ret]; rewrite H; cbn [world log]; rewrite E, Hr; reflexivity.
Qed.

Lemma write_config_refused (configPath exportLine message : string) (st : State) :
  has_bin_reference (read_or_empty configPath st) = false ->
  nodes (world st) !! configPath <> Some Dir ->
  (forall c, nodes (world st) !! configPath <> Some (AppendOnly c)) ->
  fs_refuses rt (world st) (EvAppendFile configPath (path_block exportLine)) = Some message ->
  write_config configPath exportLine st
  = (Return (json_response (failure_payload (JsError message))),
     log (EvAppendFile configPath (path_block exportLine)) (log (EvReadFile configPath) st)).
Proof.
  unfold read_or_empty, write_config, try_catch, bind, fs_readFile, fs_appendFile.
  cbn [world log].
  destruct (nodes (world st) !! configPath) as [[c | | c] |] eqn:E; intros H Hd Ha Hr;
    [| congruence | exfalso; exact (Ha c eq_refl) |];
    cbn [ret]; rewrite H; cbn [world log]; rewrite E, Hr; reflexivity.
Qed.

Lemma write_config_directory (configPath exportLine : string) (st : State) :
  has_bin_reference (read_or_empty configPath st) = false ->
  nodes (world st) !! configPath = Some Dir ->
  write_config configPath exportLine st
  = (Return (json_response (failure_payload
               (errno "EISDIR" "illegal operation on a directory" "open" configPath))),
     log (EvAppendFile configPath (path_block exportLine)) (log (EvReadFile configPath) st)).
Proof.
  unfold read_or_empty, write_config, try_catch, bind, fs_readFile, fs_appendFile.
  cbn [world log]. intros H E. rewrite E in *. cbn [ret]. rewrite H.
  cbn [world log]. rewrite E. reflexivity.
Qed.

Lemma write_config_unreadable (configPath exportLine content : string) (st : State) :
  nodes (world st) !! configPath = Some (AppendOnly content) ->
  binDir <> "" ->
  fs_refuses rt (world st) (EvAppendFile configPath (path_block exportLine)) = None ->
  write_config configPath exportLine st
  = (Return (json_response (added_payload configPath exportLine)),
     set_nodes (<[configPath := AppendOnly (content +:+ path_block exportLine)]>
                  (nodes (world st)))
               (log (EvAppendFile configPath (path_block exportLine))
                    (log (EvReadFile configPath) st))).
Proof.
  intros E Hbin Hr.
  assert (Href : has_bin_reference "" = false).
  { unfold has_bin_reference. destruct binDir as [| c b]; [contradiction | reflexivity]. }
  unfold write_config, try_catch, bind, fs_readFile, fs_appendFile.
  cbn [world log]. rewrite E. cbn [ret]. rewrite Href.
  cbn [world log]. rewrite E, Hr. reflexivity.
Qed.

Lemma read_or_empty_log (configPath : string) (ev : Event) (st : State) :
  read_or_empty configPath (log ev st) = read_or_empty configPath st.
Proof. reflexivity. Qed.

(** X21: for every supported shell whose configuration file, if there
    is one, can be read, [setup_path] is idempotent: a second call leaves
    the world as the first one left it, so the configuration file has
    the same content after both.  Unless the first call ended in its
    [catch] block, the second call only reads the file and answers that
    the PATH is already set, without appending, and a file the first
    call leaves at the configuration path mentions [~/bin] or the
    absolute bin directory. *)
Theorem setupPath_idempotent (shell : option string) (st : State) :
  effective_shell shell ∈ Object_keys shellConfigs ->
  (forall content,
     nodes (world st) !! config_path (effective_shell shell) <> Some (AppendOnly content)) ->
  let configPath := config_path (effective_shell shell) in
  let st1 := snd (setupPath shell st) in
  let st2 := snd (setupPath shell st1) in
  world st2 = world st1
  /\ nodes (world st2) !! configPath = nodes (world st1) !! configPath
  /\ ((forall error, fst (setupPath shell st) <> Return (json_response (failure_payload error))) ->
      setupPath shell st1
      = (Return (json_response (already_payload configPath)), log (EvReadFile configPath) st1)
      /\ forall configContent,
           nodes (world st1) !! configPath = Some (File configContent) ->
           includes configContent "~/bin" || includes configContent binDir = true).
Proof.
  intros Hs Hreadable. cbv zeta. rewrite (setupPath_supported shell Hs).
  set (p := config_path (effective_shell shell)) in *.
  set (sh := effective_shell shell).
  destruct (has_bin_reference (read_or_empty p st)) eqn:Href.
  - (* the reference is there before the first call *)
    rewrite (write_config_skip p (exportLine_of sh) st Href). cbn [fst snd].
    rewrite (write_config_skip p (exportLine_of sh) (log (EvReadFile p) st) Href).
    cbn [snd]. split; [reflexivity | split; [reflexivity |]].
    intros _. split; [reflexivity |].
    intros c Hc.
    unfold read_or_empty in Href. cbn [world log] in Hc. rewrite Hc in Href. exact Href.
  - destruct (decide (nodes (world st) !! p = Some Dir)) as [Hd | Hd].
    + (* a directory sits at the configuration path: both appends fail *)
      rewrite (write_config_directory p (exportLine_of sh) st Href Hd). cbn [fst snd].
      set (st1 := log (EvAppendFile p (path_block (exportLine_of sh))) (log (EvReadFile p) st)).
      rewrite (write_config_directory p (exportLine_of sh) st1 Href Hd). cbn [snd].
      split; [reflexivity | split; [reflexivity |]].
      intros Hok. exfalso. exact (Hok _ eq_refl).
    + destruct (fs_refuses rt (world st) (EvAppendFile p (path_block (exportLine_of sh))))
        as [message |] eqn:Hr.
      * (* the host refuses the append, both times *)
        rewrite (write_config_refused p (exportLine_of sh) message st Href Hd Hreadable Hr).
        cbn [fst snd].
        set (st1 := log (EvAppendFile p (path_block (exportLine_of sh)))
                        (log (EvReadFile p) st)).
        rewrite (write_config_refused p (exportLine_of sh) message st1 Href Hd Hreadable Hr).
        cbn [snd].
        split; [reflexivity | split; [reflexivity |]].
        intros Hok. exfalso. exact (Hok _ eq_refl).
      * (* the first call appends the block *)
        rewrite (write_config_append p (exportLine_of sh) st Href Hd Hreadable Hr).
        cbn [fst snd].
        set (st1 := set_nodes _ _).
        assert (Hfile : nodes (world st1) !! p
                        = Some (File (read_or_empty p st +:+ path_block (exportLine_of sh)))).
        { unfold st1, set_nodes. cbn [world nodes]. apply lookup_insert_eq. }
        assert (Href1 : has_bin_reference (read_or_empty p st1) = true).
        { unfold read_or_empty at 1. rewrite Hfile. apply path_block_has_reference. }
        rewrite (write_config_skip p (exportLine_of sh) st1 Href1). cbn [snd].
        split; [reflexivity | split; [reflexivity |]].
        intros _. split; [reflexivity |].
        intros c Hc. rewrite Hfile in Hc. injection Hc as <-. apply path_block_has_reference.
Qed.

(** *** [build_from_source] *)

Lemma substring_all (s : string) : String.substring 0 (String.length s) s = s.
Proof.
  induction s as [| c s IH]; [reflexivity |].
  cbn [String.length String.substring]. rewrite IH. reflexivity.
Qed.

Lemma substring_after (m t : string) :
  String.substring (String.length m) (String.length (m +:+ t) - String.length m) (m +:+ t) = t.
Proof.
  induction m as [| c m IH].
  - change ("" +:+ t) with t. cbn [String.length]. rewrite Nat.sub_0_r. apply substring_all.
  - change (String c m +:+ t) with (String c (m +:+ t)).
    cbn [String.length String.substring Nat.sub]. exact IH.
Qed.

Lemma prefix_append (m t : string) : String.prefix m (m +:+ t) = true.
Proof.
  induction m as [| c m IH]; [destruct t; reflexivity |].
  change (String c m +:+ t) with (String c (m +:+ t)). cbn [String.prefix].
  destruct (ascii_dec c c) as [_ | Hne]; [exact IH | contradiction].
Qed.

Lemma after_marker_found (c : ascii) (m t : string) :
  after_marker (String c m) (String c m +:+ t) = Some t.
Proof.
  change (String c m +:+ t) with (String c (m +:+ t)).
  change (after_marker (String c m) (String c (m +:+ t)))
    with (if String.prefix (String c m) (String c (m +:+ t))
          then Some (String.substring (String.length (String c m))
                       (String.length (String c (m +:+ t)) - String.length (String c m))
                       (String c (m +:+ t)))
          else after_marker (String c m) (m +:+ t)).
  change (String c (m +:+ t)) with (String c m +:+ t).
  rewrite prefix_append, substring_after. reflexivity.
Qed.

(** C3, amended: with a non-empty tag the checkout entry of [steps] and
    the one of [commands] carry that tag, and no other entry depends on
    it; with no tag, or an empty one, the checkout entry of [steps]
    carries [<tag>] and the one of [commands] carries [<desired-tag>];
    the handler returns these two lists in its payload and touches
    nothing. *)
Theorem build_from_source_tag (t : string) (st : State) :
  t <> "" ->
  build_steps (Some t)
  = [ "Clone the repository: git clone https://github.com/ava-labs/avalanche-cli.git";
      "Navigate to the directory: cd avalanche-cli";
      "Checkout specific tag: git checkout " +:+ t;
      "Build the binary: ./scripts/build.sh";
      "Binary will be available at: ./bin/avalanche" ]
  /\ build_commands (Some t)
     = [ "git clone https://github.com/ava-labs/avalanche-cli.git";
         "cd avalanche-cli";
         "git checkout " +:+ t;
         "./scripts/build.sh" ]
  /\ checkout_tags (build_steps (Some t)) = [t]
  /\ checkout_tags (build_commands (Some t)) = [t]
  /\ checkout_tags (build_steps None) = ["<tag>"]
  /\ checkout_tags (build_commands None) = ["<desired-tag>"]
  /\ build_steps (Some "") = build_steps None
  /\ build_commands (Some "") = build_commands None
  /\ forall tag, getBuildFromSourceInfo tag st = (Return (json_response (build_info tag)), st).
Proof.
  intros Ht.
  assert (E : truthy_string (Some t) = true).
  { cbn [truthy_string]. apply negb_true_iff, String.eqb_neq. exact Ht. }
  assert (Hs : build_steps (Some t)
               = [ "Clone the repository: git clone https://github.com/ava-labs/avalanche-cli.git";
                   "Navigate to the directory: cd avalanche-cli";
                   "Checkout specific tag: git checkout " +:+ t;
                   "Build the binary: ./scripts/build.sh";
                   "Binary will be available at: ./bin/avalanche" ]).
  { unfold build_steps. rewrite E. reflexivity. }
  assert (Hc : build_commands (Some t)
               = [ "git clone https://github.com/ava-labs/avalanche-cli.git";
                   "cd avalanche-cli";
                   "git checkout " +:+ t;
                   "./scripts/build.sh" ]).
  { unfold build_commands. rewrite E. reflexivity. }
  split; [exact Hs |]. split; [exact Hc |].
  assert (Hstep : after_marker "git checkout " ("Checkout specific tag: git checkout " +:+ t)
                  = after_marker "git checkout " ("git checkout " +:+ t)).
  { vm_compute. reflexivity. }
  split.
  { rewrite Hs. unfold checkout_tags. cbn [omap list_omap].
    rewrite Hstep, after_marker_found. vm_compute. reflexivity. }
  split.
  { rewrite Hc. unfold checkout_tags. cbn [omap list_omap].
    rewrite after_marker_found. vm_compute. reflexivity. }
  split; [vm_compute; reflexivity |]. split; [vm_compute; reflexivity |].
  split; [reflexivity |]. split; [reflexivity |].
  intros tag. reflexivity.
Qed.

(** *** [check_installation] *)

(** X1: when both probes succeed, [check_installation] reports
    [installed: true] with the trimmed output of [avalanche --version]
    and of [which avalanche]; the two commands are its only calls into
    the host, in that order. *)
Theorem checkInstallation_installed
    (st : State) (version versionErr which whichErr : string) (w1 w2 : World) :
  exec_oracle rt "avalanche --version" (world st) = (ExecOk version versionErr, w1) ->
  exec_oracle rt "which avalanche" w1 = (ExecOk which whichErr, w2) ->
  checkInstallation st
  = (Return (json_response (installed_payload version which)),
     {| world := w2;
        trace := trace st ++ [EvExec "avalanche --version"; EvExec "which avalanche"] |}).
Proof.
  intros Hv Hw. unfold checkInstallation, try_catch, bind, execAsync.
  rewrite Hv. cbn [world trace]. rewrite Hw. rewrite <- app_assoc. reflexivity.
Qed.

(** X2: when [avalanche --version] fails, [check_installation] returns
    the [installed: false] payload, whose text does not depend on the
    error, and [which avalanche] is never run. *)
Theorem checkInstallation_version_fails (st : State) (message : string) (w1 : World) :
  exec_oracle rt "avalanche --version" (world st) = (ExecFail message, w1) ->
  checkInstallation st
  = (Return (json_response not_installed_payload),
     {| world := w1; trace := trace st ++ [EvExec "avalanche --version"] |}).
Proof.
  intros Hv. unfold checkInstallation, try_catch, bind, execAsync.
  rewrite Hv. reflexivity.
Qed.

(** X3: when the version probe succeeds but [which avalanche] fails,
    [check_installation] still answers [installed: false]; the version
    it had read is dropped. *)
Theorem checkInstallation_which_fails
    (st : State) (version versionErr message : string) (w1 w2 : World) :
  exec_oracle rt "avalanche --version" (world st) = (ExecOk version versionErr, w1) ->
  exec_oracle rt "which avalanche" w1 = (ExecFail message, w2) ->
  checkInstallation st
  = (Return (json_response not_installed_payload),
     {| world := w2;
        trace := trace st ++ [EvExec "avalanche --version"; EvExec "which avalanche"] |}).
Proof.
  intros Hv Hw. unfold checkInstallation, try_catch, bind, execAsync.
  rewrite Hv. cbn [world trace]. rewrite Hw. rewrite <- app_assoc. reflexivity.
Qed.

(** *** [install_avalanche_cli] beyond the gates *)

Lemma ensure_bin_dir (st : State) :
  (nodes (world st) !! binDir = None -> fs_refuses rt (world st) (EvMkdir binDir) = None) ->
  try_catch (fs_access binDir) (fun _ => fs_mkdir rt binDir) st
  = (Return tt, bin_dir_ensured st).
Proof.
  unfold try_catch, fs_access, fs_mkdir, bin_dir_ensured. cbn [world log].
  destruct (nodes (world st) !! binDir) as [n |] eqn:E; [reflexivity |].
  intros Hr. cbn [world log]. rewrite E, (Hr eq_refl). reflexivity.
Qed.

Lemma install_after_gates (st : State) (outcome : ExecOutcome) (w : World) :
  supported_platform (os_platform rt) ->
  (nodes (world st) !! binDir = None -> fs_refuses rt (world st) (EvMkdir binDir) = None) ->
  exec_oracle rt installCommand (world (bin_dir_ensured st)) = (outcome, w) ->
  installAvalancheCLI true st
  = (Return (json_response (install_outcome_payload outcome)),
     {| world := w; trace := trace (bin_dir_ensured st) ++ [EvExec installCommand] |}).
Proof.
  intros Hp Hr Hi. unfold installAvalancheCLI, try_catch at 1, bind at 1.
  rewrite (platform_gate_supported Hp). cbn [negb ret].
  unfold bind at 1. cbn [ret]. unfold bind at 1. fold binDir.
  rewrite (ensure_bin_dir st Hr). unfold bind, execAsync. rewrite Hi.
  destruct outcome as [out err | message]; reflexivity.
Qed.

(** X4: a forced install on a supported platform never probes for an
    existing tool: it checks [~/bin] and creates it only when nothing is
    there; when the host does not refuse that creation, it runs the
    install script and answers with the script's output on success or
    with [success: false] and the script's error message on failure.  A
    directory it created stays when the script fails. *)
Theorem install_forced (st : State) (outcome : ExecOutcome) (w : World) :
  supported_platform (os_platform rt) ->
  (nodes (world st) !! binDir = None -> fs_refuses rt (world st) (EvMkdir binDir) = None) ->
  exec_oracle rt installCommand (world (bin_dir_ensured st)) = (outcome, w) ->
  installAvalancheCLI true st
  = (Return (json_response (install_outcome_payload outcome)),
     {| world := w; trace := trace (bin_dir_ensured st) ++ [EvExec installCommand] |})
  /\ is_Some (nodes (world (bin_dir_ensured st)) !! binDir)
  /\ (nodes (world st) !! binDir = None ->
      nodes (world (bin_dir_ensured st)) !! binDir = Some Dir
      /\ trace (bin_dir_ensured st) = trace st ++ [EvAccess binDir; EvMkdir binDir])
  /\ (is_Some (nodes (world st) !! binDir) ->
      world (bin_dir_ensured st) = world st
      /\ trace (bin_dir_ensured st) = trace st ++ [EvAccess binDir]).
Proof.
  intros Hp Hr Hi. split; [exact (install_after_gates st outcome w Hp Hr Hi) |].
  unfold bin_dir_ensured.
  destruct (nodes (world st) !! binDir) as [n |] eqn:E.
  - split; [cbn [world log]; rewrite E; eauto |].
    split; [discriminate |]. intros _. split; reflexivity.
  - split; [unfold set_nodes; cbn [world nodes]; rewrite lookup_insert_eq; eauto |].
    split.
    + intros _. split.
      * unfold set_nodes. cbn [world nodes]. apply lookup_insert_eq.
      * unfold set_nodes. cbn [trace log]. rewrite <- app_assoc. reflexivity.
    + intros [n Hn]. discriminate Hn.
Qed.

(** X19: on a supported platform, when [~/bin] is absent and the host
    refuses to create it, a forced install answers [success: false]
    with the error of the [mkdir]; the install script is never run and
    the world is unchanged. *)
Theorem install_mkdir_refused (st : State) (message : string) :
  supported_platform (os_platform rt) ->
  nodes (world st) !! binDir = None ->
  fs_refuses rt (world st) (EvMkdir binDir) = Some message ->
  installAvalancheCLI true st
  = (Return (json_response (failure_payload (JsError message))),
     {| world := world st; trace := trace st ++ [EvAccess binDir; EvMkdir binDir] |})
  /\ (EvExec installCommand ∉ [EvAccess binDir; EvMkdir binDir]).
Proof.
  intros Hp Habsent Hr. split.
  - unfold installAvalancheCLI, try_catch at 1, bind at 1.
    rewrite (platform_gate_supported Hp). cbn [negb ret].
    unfold bind at 1. cbn [ret]. unfold bind at 1. fold binDir.
    unfold try_catch, fs_access, fs_mkdir. cbn [world log]. rewrite Habsent.
    cbn [world log]. rewrite Habsent, Hr. unfold log. cbn [world trace].
    rewrite <- app_assoc. reflexivity.
  - rewrite !not_elem_of_cons. repeat split; try discriminate. apply not_elem_of_nil.
Qed.

(** X5: on a supported platform, an install without [force] whose probe
    [which avalanche] fails goes on exactly as a forced install started
    in the state the probe left. *)
Theorem install_probe_miss_proceeds (st : State) (message : string) (w : World) :
  supported_platform (os_platform rt) ->
  exec_oracle rt "which avalanche" (world st) = (ExecFail message, w) ->
  installAvalancheCLI false st
  = installAvalancheCLI true {| world := w; trace := trace st ++ [EvExec "which avalanche"] |}.
Proof.
  intros Hp Hw. unfold installAvalancheCLI, try_catch at 1 3, bind at 1 5.
  rewrite (platform_gate_supported Hp). cbn [negb ret].
  unfold bind at 1, try_catch at 1, bind at 1.
  rewrite (execAsync_fail Hw). cbn [ret]. reflexivity.
Qed.

(** X6: whatever the platform, the flag and the host, [install] returns
    a response (it never throws), and its calls into the host are one of
    the sequences of [install_calls]: none, the probe alone, or the
    probe (unless forced), the check of [~/bin], its creation (only
    after a failed check) and the script (only once the directory is
    there).  It never reads, appends to or unlinks a file. *)
Theorem install_calls_shape (force : bool) (st : State) :
  exists (r : Response) (st' : State) (calls : list Event),
    installAvalancheCLI force st = (Return r, st')
    /\ trace st' = trace st ++ calls
    /\ calls ∈ install_calls.
Proof.
  destruct (installAvalancheCLI force st) as [o st'] eqn:H.
  unfold installAvalancheCLI, try_catch, bind, execAsync, fs_access, fs_mkdir in H.
  unfold install_calls. fold binDir in H.
  split_handler H; injection H as <- <-;
    unfold log, set_nodes in *; cbn [trace world] in *; try congruence;
    rewrite <- ?app_assoc; cbn [app];
    eexists _, _, _; (split; [reflexivity |]);
    (split; [first [reflexivity | symmetry; apply app_nil_r] |]);
    set_solver.
Qed.

(** *** [update_avalanche_cli] beyond the existence check *)

Lemma probe_version_spec (st : State) (probe : ExecOutcome) (w : World) :
  exec_oracle rt "avalanche --version" (world st) = (probe, w) ->
  probe_version st
  = (Return (version_of probe),
     {| world := w; trace := trace st ++ [EvExec "avalanche --version"] |}).
Proof.
  intros H. unfold probe_version, try_catch, bind, execAsync. rewrite H.
  destruct probe; reflexivity.
Qed.

(** X7: when the binary exists, is still a file after the first version
    probe, and the install script succeeds, [update] unlinks the binary,
    runs the script and answers [success: true] with the version read
    before and the version read after (trimmed, or [unknown] for a probe
    that failed) and the script's output; its calls into the host are
    the five of [update_calls], in that order. *)
Theorem update_success
    (st : State) (before after : ExecOutcome) (w1 w3 w4 : World)
    (binary stdout stderr : string) :
  is_Some (nodes (world st) !! binaryPath) ->
  exec_oracle rt "avalanche --version" (world st) = (before, w1) ->
  nodes w1 !! binaryPath = Some (File binary) ->
  exec_oracle rt installCommand (without_binary w1) = (ExecOk stdout stderr, w3) ->
  exec_oracle rt "avalanche --version" w3 = (after, w4) ->
  updateAvalancheCLI st
  = (Return (json_response
               (update_success_payload (version_of before) (version_of after) stdout stderr)),
     {| world := w4; trace := trace st ++ update_calls |}).
Proof.
  intros [n Hn] Hbefore Hfile Hinstall Hafter.
  unfold updateAvalancheCLI, try_catch at 1, bind at 1. fold binaryPath.
  unfold try_catch at 1, bind at 1, fs_access. cbn [world log]. rewrite Hn.
  cbn [ret]. unfold bind at 1.
  rewrite (probe_version_spec (log (EvAccess binaryPath) st) before w1 Hbefore).
  unfold bind at 1, fs_unlink. cbn [world log trace]. rewrite Hfile.
  unfold bind at 1, set_nodes, execAsync. cbn [world log trace outside].
  unfold without_binary in Hinstall. rewrite Hinstall.
  unfold bind at 1.
  erewrite (probe_version_spec _ after w4) by exact Hafter. cbn [trace ret fst snd].
  unfold update_calls. rewrite <- !app_assoc. reflexivity.
Qed.

(** X8: when the path of the binary exists but, once the version probe
    has run, holds no regular file (a directory, or nothing any more),
    the unlink fails: [update] answers [success: false] with that error,
    leaves the world as the probe left it, and never runs the install
    script. *)
Theorem update_unlink_fails (st : State) (before : ExecOutcome) (w1 : World) :
  is_Some (nodes (world st) !! binaryPath) ->
  exec_oracle rt "avalanche --version" (world st) = (before, w1) ->
  (forall binary, nodes w1 !! binaryPath <> Some (File binary)) ->
  exists error : Exn,
    updateAvalancheCLI st
    = (Return (json_response (failure_payload error)),
       {| world := w1;
          trace := trace st ++ [ EvAccess binaryPath; EvExec "avalanche --version";
                                 EvUnlink binaryPath ] |})
    /\ (EvExec installCommand ∉ [ EvAccess binaryPath; EvExec "avalanche --version";
                                  EvUnlink binaryPath ]).
Proof.
  intros [n Hn] Hbefore Hnofile.
  assert (Hnot : EvExec installCommand ∉ [ EvAccess binaryPath; EvExec "avalanche --version";
                                           EvUnlink binaryPath ]).
  { rewrite !not_elem_of_cons. repeat split; try discriminate. apply not_elem_of_nil. }
  unfold updateAvalancheCLI, try_catch at 1, bind at 1. fold binaryPath.
  unfold try_catch at 1, bind at 1, fs_access. cbn [world log]. rewrite Hn.
  cbn [ret]. unfold bind at 1.
  rewrite (probe_version_spec (log (EvAccess binaryPath) st) before w1 Hbefore).
  unfold bind at 1, fs_unlink. cbn [world log trace].
  destruct (nodes w1 !! binaryPath) as [[binary | | content] |] eqn:E.
  - exfalso. exact (Hnofile binary eq_refl).
  - eexists. split; [| exact Hnot]. unfold ret, log. cbn [world trace]. rewrite <- !app_assoc. reflexivity.
  - eexists. split; [| exact Hnot]. unfold ret, log. cbn [world trace]. rewrite <- !app_assoc. reflexivity.
  - eexists. split; [| exact Hnot]. unfold ret, log. cbn [world trace]. rewrite <- !app_assoc. reflexivity.
Qed.

(** X9: whatever the host, [update] returns a response (it never
    throws), and its calls into the host are an initial segment of
    [update_calls]: the binary is unlinked only after the existence
    check and the version probe, and the install script runs only after
    the unlink.  It never creates a directory and never reads or appends
    to a file. *)
Theorem update_calls_prefix (st : State) :
  exists (r : Response) (st' : State) (calls : list Event),
    updateAvalancheCLI st = (Return r, st')
    /\ trace st' = trace st ++ calls
    /\ calls `prefix_of` update_calls.
Proof.
  destruct (updateAvalancheCLI st) as [o st'] eqn:H.
  unfold updateAvalancheCLI, probe_version, try_catch, bind, execAsync, fs_access, fs_unlink in H.
  unfold update_calls. fold binaryPath in H.
  split_handler H; injection H as <- <-;
    unfold log, set_nodes; cbn [trace world];
    rewrite <- ?app_assoc; cbn [app];
    eexists _, _, _; (split; [reflexivity |]);
    (split; [reflexivity |]);
    eexists; reflexivity.
Qed.

(** *** [setup_path]: the three outcomes of the [try] block *)

(** X10: for a supported shell whose configuration file is absent, or
    is a readable file that mentions neither [~/bin] nor the absolute
    bin directory, and when the host does not refuse the write,
    [setup_path] reads the file, appends the comment line and the
    export line of that shell after the content that was there, and
    answers with the path, the reload instruction and the line added. *)
Theorem setupPath_appends (shell : option string) (st : State) :
  effective_shell shell ∈ Object_keys shellConfigs ->
  has_bin_reference (read_or_empty (config_path (effective_shell shell)) st) = false ->
  nodes (world st) !! config_path (effective_shell shell) <> Some Dir ->
  (forall content,
     nodes (world st) !! config_path (effective_shell shell) <> Some (AppendOnly content)) ->
  fs_refuses rt (world st)
    (EvAppendFile (config_path (effective_shell shell))
       (path_block (exportLine_of (effective_shell shell)))) = None ->
  let configPath := config_path (effective_shell shell) in
  let exportLine := exportLine_of (effective_shell shell) in
  setupPath shell st
  = (Return (json_response (added_payload configPath exportLine)),
     {| world := {| nodes := <[configPath := File (read_or_empty configPath st
                                                    +:+ path_block exportLine)]>
                               (nodes (world st));
                    outside := outside (world st) |};
        trace := trace st ++ [EvReadFile configPath;
                              EvAppendFile configPath (path_block exportLine)] |}).
Proof.
  intros Hs Href Hd Ha Hr. cbv zeta. rewrite (setupPath_supported shell Hs).
  rewrite (write_config_append _ _ st Href Hd Ha Hr).
  unfold set_nodes. cbn [world log trace outside]. rewrite <- app_assoc. reflexivity.
Qed.

(** X20: for a supported shell, when the host refuses the append to a
    configuration file that is absent or readable and lacks the
    reference (for instance [config.fish] under a missing
    [~/.config/fish]), [setup_path] answers [success: false] with the
    error of the append instead of throwing, and writes nothing. *)
Theorem setupPath_append_refused (shell : option string) (st : State) (message : string) :
  effective_shell shell ∈ Object_keys shellConfigs ->
  has_bin_reference (read_or_empty (config_path (effective_shell shell)) st) = false ->
  nodes (world st) !! config_path (effective_shell shell) <> Some Dir ->
  (forall content,
     nodes (world st) !! config_path (effective_shell shell) <> Some (AppendOnly content)) ->
  fs_refuses rt (world st)
    (EvAppendFile (config_path (effective_shell shell))
       (path_block (exportLine_of (effective_shell shell)))) = Some message ->
  let configPath := config_path (effective_shell shell) in
  setupPath shell st
  = (Return (json_response (failure_payload (JsError message))),
     {| world := world st;
        trace := trace st ++ [EvReadFile configPath;
                              EvAppendFile configPath
                                (path_block (exportLine_of (effective_shell shell)))] |}).
Proof.
  intros Hs Href Hd Ha Hr. cbv zeta. rewrite (setupPath_supported shell Hs).
  rewrite (write_config_refused _ _ message st Href Hd Ha Hr).
  unfold log. cbn [world trace]. rewrite <- app_assoc. reflexivity.
Qed.

(** C5, where the code departs from it: [setup_path] is not idempotent
    on a configuration file that exists but cannot be read.  The inner
    [catch], commented as the case of a file that does not exist, takes
    every failed read for an empty file, so the check for [~/bin] is
    made on the empty string: unless the host refuses the write, the
    call appends the block after the content that is there, whatever
    that content is, a second call appends it once more, and both
    answer that the line was added. *)
Theorem setupPath_unreadable_appends_again
    (shell : option string) (st : State) (content : string) :
  effective_shell shell ∈ Object_keys shellConfigs ->
  nodes (world st) !! config_path (effective_shell shell) = Some (AppendOnly content) ->
  binDir <> "" ->
  (forall w, fs_refuses rt w
     (EvAppendFile (config_path (effective_shell shell))
        (path_block (exportLine_of (effective_shell shell)))) = None) ->
  let configPath := config_path (effective_shell shell) in
  let block := path_block (exportLine_of (effective_shell shell)) in
  let st1 := snd (setupPath shell st) in
  let st2 := snd (setupPath shell st1) in
  nodes (world st1) !! configPath = Some (AppendOnly (content +:+ block))
  /\ nodes (world st2) !! configPath = Some (AppendOnly ((content +:+ block) +:+ block))
  /\ fst (setupPath shell st)
     = Return (json_response (added_payload configPath (exportLine_of (effective_shell shell))))
  /\ fst (setupPath shell st1) = fst (setupPath shell st).
Proof.
  intros Hs Hnode Hbin Hr. cbv zeta. rewrite (setupPath_supported shell Hs).
  rewrite (write_config_unreadable _ _ content st Hnode Hbin (Hr _)). cbn [fst snd].
  set (st1 := set_nodes _ _).
  assert (Hnode1 : nodes (world st1) !! config_path (effective_shell shell)
                   = Some (AppendOnly (content +:+ path_block (exportLine_of (effective_shell shell))))).
  { unfold st1, set_nodes. cbn [world nodes]. apply lookup_insert_eq. }
  rewrite (write_config_unreadable _ _ _ st1 Hnode1 Hbin (Hr _)). cbn [fst snd].
  split; [exact Hnode1 |]. split; [| split; reflexivity].
  unfold set_nodes. cbn [world nodes]. apply lookup_insert_eq.
Qed.

(** X11: for a supported shell whose configuration file already contains
    [~/bin] or the absolute bin directory anywhere in its text,
    [setup_path] only reads the file and answers that the PATH is
    already set; nothing is written. *)
Theorem setupPath_already_configured (shell : option string) (st : State) (configContent : string) :
  effective_shell shell ∈ Object_keys shellConfigs ->
  nodes (world st) !! config_path (effective_shell shell) = Some (File configContent) ->
  includes configContent "~/bin" || includes configContent binDir = true ->
  setupPath shell st
  = (Return (json_response (already_payload (config_path (effective_shell shell)))),
     {| world := world st;
        trace := trace st ++ [EvReadFile (config_path (effective_shell shell))] |}).
Proof.
  intros Hs Hfile Href. rewrite (setupPath_supported shell Hs).
  apply write_config_skip. unfold read_or_empty. rewrite Hfile. exact Href.
Qed.

(** X12: for a supported shell, when a directory sits at the path of
    the configuration file (and the bin directory is not the empty
    path), the read fails and is ignored, the append fails, and
    [setup_path] answers [success: false] with the error of the append;
    the world is unchanged. *)
Theorem setupPath_directory_in_the_way (shell : option string) (st : State) :
  effective_shell shell ∈ Object_keys shellConfigs ->
  nodes (world st) !! config_path (effective_shell shell) = Some Dir ->
  binDir <> "" ->
  let configPath := config_path (effective_shell shell) in
  setupPath shell st
  = (Return (json_response (failure_payload
               (errno "EISDIR" "illegal operation on a directory" "open" configPath))),
     {| world := world st;
        trace := trace st ++ [EvReadFile configPath;
                              EvAppendFile configPath
                                (path_block (exportLine_of (effective_shell shell)))] |}).
Proof.
  intros Hs Hd Hbin. cbv zeta. rewrite (setupPath_supported shell Hs).
  rewrite (write_config_directory _ _ st); [| | exact Hd].
  - unfold log. cbn [world trace]. rewrite <- app_assoc. reflexivity.
  - unfold read_or_empty. rewrite Hd. unfold has_bin_reference.
    destruct binDir as [| c b]; [contradiction | reflexivity].
Qed.

(** *** [setup_path]: what it leaves alone, and shell detection *)

Lemma setupPath_inherited (shell : option string) (st : State) :
  effective_shell shell ∈ Object_prototype_keys ->
  setupPath shell st
  = (Throw (JsTypeError (path_invalid_arg rt (effective_shell shell))), st).
Proof.
  unfold Object_prototype_keys. rewrite !elem_of_cons, elem_of_nil.
  unfold setupPath.
  intros [H | [H | [H | [H | [H | [H | [H | [H | [H | [H | [H | [H | []]]]]]]]]]]]];
    rewrite H; reflexivity.
Qed.

Lemma supported_not_inherited (shell : string) :
  shell ∈ Object_keys shellConfigs -> shell ∉ Object_prototype_keys.
Proof.
  unfold Object_keys, shellConfigs. cbn [map fst].
  rewrite !elem_of_cons, elem_of_nil.
  intros [-> | [-> | [-> | []]]]; apply (bool_decide_unpack _); vm_compute; exact I.
Qed.

Lemma write_config_outcome (configPath exportLine : string) (st : State) :
  exists (r : Response) (calls : list Event) (ns : gmap string Node),
    write_config configPath exportLine st
    = (Return r, {| world := {| nodes := ns; outside := outside (world st) |};
                    trace := trace st ++ calls |})
    /\ calls ∈ [ [EvReadFile configPath];
                 [EvReadFile configPath; EvAppendFile configPath (path_block exportLine)] ]
    /\ (ns = nodes (world st)
        \/ ns = <[configPath := File (read_or_empty configPath st +:+ path_block exportLine)]>
                  (nodes (world st))
        \/ exists content,
             nodes (world st) !! configPath = Some (AppendOnly content)
             /\ ns = <[configPath := AppendOnly (content +:+ path_block exportLine)]>
                       (nodes (world st))).
Proof.
  assert (Hread : [EvReadFile configPath]
                  ∈ [ [EvReadFile configPath];
                      [EvReadFile configPath; EvAppendFile configPath (path_block exportLine)] ]).
  { apply list_elem_of_here. }
  assert (Hboth : [EvReadFile configPath; EvAppendFile configPath (path_block exportLine)]
                  ∈ [ [EvReadFile configPath];
                      [EvReadFile configPath; EvAppendFile configPath (path_block exportLine)] ]).
  { apply list_elem_of_further, list_elem_of_here. }
  assert (Hst : forall calls,
            {| world := {| nodes := nodes (world st); outside := outside (world st) |};
               trace := trace st ++ calls |}
            = {| world := world st; trace := trace st ++ calls |}).
  { intros calls. destruct st as [[ns o] t]. reflexivity. }
  destruct (has_bin_reference (read_or_empty configPath st)) eqn:Href.
  { rewrite (write_config_skip configPath exportLine st Href).
    eexists _, [EvReadFile configPath], (nodes (world st)).
    split; [rewrite Hst; reflexivity |]. split; [exact Hread | left; reflexivity]. }
  destruct (nodes (world st) !! configPath) as [[c | | c] |] eqn:E.
  - destruct (fs_refuses rt (world st) (EvAppendFile configPath (path_block exportLine)))
      as [message |] eqn:Hr.
    + rewrite (write_config_refused configPath exportLine message st Href); try congruence.
      eexists _, _, (nodes (world st)).
      split; [rewrite Hst; unfold log; cbn [world trace]; rewrite <- app_assoc; reflexivity |].
      split; [exact Hboth | left; reflexivity].
    + rewrite (write_config_append configPath exportLine st Href); try congruence.
      eexists _, _, _.
      split; [unfold set_nodes, log; cbn [world trace outside];
              rewrite <- app_assoc; reflexivity |].
      split; [exact Hboth | right; left; reflexivity].
  - rewrite (write_config_directory configPath exportLine st Href E).
    eexists _, _, (nodes (world st)).
    split; [rewrite Hst; unfold log; cbn [world trace]; rewrite <- app_assoc; reflexivity |].
    split; [exact Hboth | left; reflexivity].
  - unfold write_config, try_catch, bind, fs_readFile, fs_appendFile.
    unfold read_or_empty in Href. rewrite E in Href.
    cbn [world log]. rewrite E. cbn [ret]. rewrite Href. cbn [world log]. rewrite E.
    destruct (fs_refuses rt (world st) (EvAppendFile configPath (path_block exportLine)))
      as [message |] eqn:Hr.
    + eexists _, _, (nodes (world st)).
      split; [rewrite Hst; unfold log; cbn [world trace]; rewrite <- app_assoc; reflexivity |].
      split; [exact Hboth | left; reflexivity].
    + eexists _, _, _.
      split; [unfold set_nodes, log; cbn [world trace outside];
              rewrite <- app_assoc; reflexivity |].
      split; [exact Hboth | right; right; exists c; split; reflexivity].
  - destruct (fs_refuses rt (world st) (EvAppendFile configPath (path_block exportLine)))
      as [message |] eqn:Hr.
    + rewrite (write_config_refused configPath exportLine message st Href); try congruence.
      eexists _, _, (nodes (world st)).
      split; [rewrite Hst; unfold log; cbn [world trace]; rewrite <- app_assoc; reflexivity |].
      split; [exact Hboth | left; reflexivity].
    + rewrite (write_config_append configPath exportLine st Href); try congruence.
      eexists _, _, _.
      split; [unfold set_nodes, log; cbn [world trace outside];
              rewrite <- app_assoc; reflexivity |].
      split; [exact Hboth | right; left; reflexivity].
Qed.

(** X13: whatever shell is asked for, [setup_path] runs no command and
    touches no path but the configuration file of that shell: every
    other path and everything outside the file system stay as they
    were, and the configuration path either keeps what it held, or holds
    the old content followed by the appended block, or, when it held a
    file that can be appended to but not read, holds that file with the
    block appended to the content the handler could not see.  Its calls
    into the host are none, one read, or one read and one append. *)
Theorem setupPath_touches_only_config (shell : option string) (st : State) :
  let configPath := config_path (effective_shell shell) in
  let block := path_block (exportLine_of (effective_shell shell)) in
  let st' := snd (setupPath shell st) in
  outside (world st') = outside (world st)
  /\ (forall q, q <> configPath -> nodes (world st') !! q = nodes (world st) !! q)
  /\ (nodes (world st') !! configPath = nodes (world st) !! configPath
      \/ nodes (world st') !! configPath
         = Some (File (read_or_empty configPath st +:+ block))
      \/ exists content,
           nodes (world st) !! configPath = Some (AppendOnly content)
           /\ nodes (world st') !! configPath = Some (AppendOnly (content +:+ block)))
  /\ exists calls, trace st' = trace st ++ calls /\ calls ∈ setup_calls (effective_shell shell).
Proof.
  cbv zeta.
  assert (Hsame : forall o, setupPath shell st = (o, st) ->
            outside (world (snd (setupPath shell st))) = outside (world st)
            /\ (forall q, q <> config_path (effective_shell shell) ->
                  nodes (world (snd (setupPath shell st))) !! q = nodes (world st) !! q)
            /\ (nodes (world (snd (setupPath shell st))) !! config_path (effective_shell shell)
                = nodes (world st) !! config_path (effective_shell shell)
                \/ nodes (world (snd (setupPath shell st))) !! config_path (effective_shell shell)
                   = Some (File (read_or_empty (config_path (effective_shell shell)) st
                                 +:+ path_block (exportLine_of (effective_shell shell))))
                \/ exists content,
                     nodes (world st) !! config_path (effective_shell shell)
                     = Some (AppendOnly content)
                     /\ nodes (world (snd (setupPath shell st)))
                        !! config_path (effective_shell shell)
                        = Some (AppendOnly
                                  (content +:+ path_block (exportLine_of (effective_shell shell)))))
            /\ exists calls, trace (snd (setupPath shell st)) = trace st ++ calls
                             /\ calls ∈ setup_calls (effective_shell shell)).
  { intros o E. rewrite E. cbn [snd].
    split; [reflexivity |]. split; [reflexivity |]. split; [left; reflexivity |].
    exists []. split; [symmetry; apply app_nil_r | unfold setup_calls; set_solver]. }
  destruct (decide (effective_shell shell ∈ Object_keys shellConfigs)) as [Hs | Hs].
  - rewrite (setupPath_supported shell Hs).
    destruct (write_config_outcome (config_path (effective_shell shell))
                (exportLine_of (effective_shell shell)) st)
      as (r & calls & ns & E & Hcalls & Hns).
    rewrite E. cbn [snd world nodes outside trace].
    split; [reflexivity |].
    split; [| split].
    + intros q Hq. destruct Hns as [-> | [-> | (c & _ & ->)]]; [reflexivity | |];
        apply lookup_insert_ne; congruence.
    + destruct Hns as [-> | [-> | (c & Hc & ->)]].
      * left; reflexivity.
      * right; left; apply lookup_insert_eq.
      * right; right. exists c. split; [exact Hc | apply lookup_insert_eq].
    + exists calls. split; [reflexivity |]. unfold setup_calls.
      revert Hcalls. rewrite !elem_of_cons. tauto.
  - destruct (decide (effective_shell shell ∈ Object_prototype_keys)) as [Hp | Hp].
    + exact (Hsame _ (setupPath_inherited shell st Hp)).
    + exact (Hsame _ (setupPath_unsupported_shell shell st Hs Hp)).
Qed.

(** X14: an empty [shell] argument is treated as no argument, and a
    call whose argument is absent or empty behaves as the call that
    names the detected shell (the last segment of [$SHELL], or of [bash]
    when that is unset or empty), provided the detected name is not
    itself empty. *)
Theorem setupPath_shell_detection (shell : option string) (st : State) :
  effective_shell shell <> "" ->
  setupPath (Some "") st = setupPath None st
  /\ setupPath shell st = setupPath (Some (effective_shell shell)) st
  /\ (truthy_string shell = false ->
      effective_shell shell
      = path_basename rt (if truthy_string (env_SHELL rt)
                          then default "" (env_SHELL rt) else "bash")).
Proof.
  intros Hne. split; [reflexivity |]. split; [| intros Hf; unfold effective_shell; rewrite Hf; reflexivity].
  assert (E : effective_shell (Some (effective_shell shell)) = effective_shell shell).
  { unfold effective_shell at 1. cbn [truthy_string default].
    apply String.eqb_neq in Hne. rewrite Hne. reflexivity. }
  unfold setupPath. rewrite E. reflexivity.
Qed.

(** *** The dispatcher *)

Lemma write_config_returns (configPath exportLine : string) (st : State) :
  exists r st', write_config configPath exportLine st = (Return r, st').
Proof.
  destruct (write_config_outcome configPath exportLine st) as (r & calls & ns & E & _).
  eauto.
Qed.

Lemma setupPath_returns (shell : option string) (st : State) :
  effective_shell shell ∉ Object_prototype_keys ->
  exists r st', setupPath shell st = (Return r, st').
Proof.
  intros Hp.
  destruct (decide (effective_shell shell ∈ Object_keys shellConfigs)) as [Hs | Hs].
  - rewrite (setupPath_supported shell Hs). apply write_config_returns.
  - rewrite (setupPath_unsupported_shell shell st Hs Hp). eauto.
Qed.

Lemma installAvalancheCLI_returns (force : bool) (st : State) :
  exists r st', installAvalancheCLI force st = (Return r, st').
Proof.
  destruct (installAvalancheCLI force st) as [o st'] eqn:H.
  unfold installAvalancheCLI, try_catch, bind, execAsync, fs_access, fs_mkdir in H.
  split_handler H; injection H as <- <-; eauto.
Qed.

Lemma checkInstallation_returns (st : State) :
  exists r st', checkInstallation st = (Return r, st').
Proof.
  destruct (checkInstallation st) as [o st'] eqn:H.
  unfold checkInstallation, try_catch, bind, execAsync in H.
  split_handler H; injection H as <- <-; eauto.
Qed.

Lemma updateAvalancheCLI_returns (st : State) :
  exists r st', updateAvalancheCLI st = (Return r, st').
Proof.
  destruct (updateAvalancheCLI st) as [o st'] eqn:H.
  unfold updateAvalancheCLI, probe_version, try_catch, bind, execAsync, fs_access, fs_unlink in H.
  split_handler H; injection H as <- <-; eauto.
Qed.

(** X15: for an effective shell name that is neither supported nor the
    name of a member inherited from [Object.prototype], the dispatcher
    returns the [success: false] payload that names the shell and lists
    [bash], [zsh] and [fish], and the state is untouched: no file is
    read or written. *)
Theorem setup_path_unsupported_shell (args : option ToolArgs) (st : State) :
  effective_shell (args ≫= shell) ∉ Object_keys shellConfigs ->
  effective_shell (args ≫= shell) ∉ Object_prototype_keys ->
  CallTool "setup_path" args st
  = (Return (json_response (unsupported_shell_payload (effective_shell (args ≫= shell)))), st).
Proof.
  intros Hs Hp. unfold CallTool, try_catch. cbn [String.eqb Ascii.eqb Bool.eqb].
  rewrite (setupPath_unsupported_shell (args ≫= shell) st Hs Hp). reflexivity.
Qed.

(** Within the typed arguments of [ToolArgs], where [shell] and [tag]
    are strings or absent, the requests that throw. *)
Lemma CallTool_throw_cases (name : string) (args : option ToolArgs) (st : State) :
  (exists e st', CallTool name args st = (Throw e, st'))
  <-> (name ∉ registered_names
       \/ (name = "setup_path"
           /\ effective_shell (args ≫= shell) ∈ Object_prototype_keys)).
Proof.
  assert (Hreg : forall n, n ∈ registered_names -> name = n -> ~ (name ∉ registered_names)).
  { intros n Hn -> Hnot. exact (Hnot Hn). }
  assert (Hret : forall (h : M Response),
             (exists r st', h st = (Return r, st')) ->
             ~ exists e st', try_catch h
                 (fun error => throw (new_McpError InternalError (error_message error))) st
                 = (Throw e, st')).
  { intros h (r & st1 & E) (e & st2 & H). unfold try_catch in H. rewrite E in H. discriminate H. }
  unfold CallTool.
  destruct (String.eqb_spec name "check_compatibility") as [E1 | E1].
  { split; [intros H; exfalso; revert H; apply Hret; unfold checkCompatibility, ret; eauto |].
    intros [H | [H _]]; [| congruence].
    exfalso. revert H. apply (Hreg "check_compatibility"); [| exact E1].
    apply (bool_decide_unpack _). vm_compute. exact I. }
  destruct (String.eqb_spec name "install_avalanche_cli") as [E2 | E2].
  { split; [intros H; exfalso; revert H; apply Hret; apply installAvalancheCLI_returns |].
    intros [H | [H _]]; [| congruence].
    exfalso. revert H. apply (Hreg "install_avalanche_cli"); [| exact E2].
    apply (bool_decide_unpack _). vm_compute. exact I. }
  destruct (String.eqb_spec name "check_installation") as [E3 | E3].
  { split; [intros H; exfalso; revert H; apply Hret; apply checkInstallation_returns |].
    intros [H | [H _]]; [| congruence].
    exfalso. revert H. apply (Hreg "check_installation"); [| exact E3].
    apply (bool_decide_unpack _). vm_compute. exact I. }
  destruct (String.eqb_spec name "setup_path") as [E4 | E4].
  { destruct (decide (effective_shell (args ≫= shell) ∈ Object_prototype_keys)) as [Hp | Hp].
    - split; [intros _; right; split; [exact E4 | exact Hp] |].
      intros _. unfold try_catch. rewrite (setupPath_inherited _ st Hp).
      unfold throw. eauto.
    - split; [intros H; exfalso; revert H; apply Hret; apply setupPath_returns; exact Hp |].
      intros [H | [_ H]]; [| contradiction].
      exfalso. revert H. apply (Hreg "setup_path"); [| exact E4].
      apply (bool_decide_unpack _). vm_compute. exact I. }
  destruct (String.eqb_spec name "get_installation_info") as [E5 | E5].
  { split; [intros H; exfalso; revert H; apply Hret; unfold getInstallationInfo, ret; eauto |].
    intros [H | [H _]]; [| congruence].
    exfalso. revert H. apply (Hreg "get_installation_info"); [| exact E5].
    apply (bool_decide_unpack _). vm_compute. exact I. }
  destruct (String.eqb_spec name "update_avalanche_cli") as [E6 | E6].
  { split; [intros H; exfalso; revert H; apply Hret; apply updateAvalancheCLI_returns |].
    intros [H | [H _]]; [| congruence].
    exfalso. revert H. apply (Hreg "update_avalanche_cli"); [| exact E6].
    apply (bool_decide_unpack _). vm_compute. exact I. }
  destruct (String.eqb_spec name "build_from_source") as [E7 | E7].
  { split; [intros H; exfalso; revert H; apply Hret; unfold getBuildFromSourceInfo, ret; eauto |].
    intros [H | [H _]]; [| congruence].
    exfalso. revert H. apply (Hreg "build_from_source"); [| exact E7].
    apply (bool_decide_unpack _). vm_compute. exact I. }
  split; [| intros _; unfold try_catch, throw; eauto].
  intros _. left. unfold registered_names, ListTools. cbn [map tool_name].
  rewrite !not_elem_of_cons. repeat split; try assumption. apply not_elem_of_nil.
Qed.


(** X17: whenever the dispatcher throws, the error has the kind
    [InternalError] and the state is the one the request started in: no
    call into the host happened on the way to the error. *)
Theorem CallTool_throw_leaves_state
    (name : string) (args : option ToolArgs) (st : State) (e : Exn) (st' : State) :
  CallTool name args st = (Throw e, st') ->
  st' = st /\ exists message, e = McpError InternalError message.
Proof.
  intros H.
  assert (Hkind : exists message, e = McpError InternalError message).
  { unfold CallTool, try_catch, throw, new_McpError in H.
    destruct (_ st) as [[r | e0] st0] in H; [discriminate H |].
    injection H as <- _. eauto. }
  split; [| exact Hkind].
  destruct (proj1 (CallTool_throw_cases name args st) (ex_intro _ e (ex_intro _ st' H)))
    as [Hn | [-> Hp]].
  - destruct (unregistered_name name Hn) as (H1 & H2 & H3 & H4 & H5 & H6 & H7).
    unfold CallTool, try_catch in H. rewrite H1, H2, H3, H4, H5, H6, H7 in H.
    unfold throw in H. injection H as _ <-. reflexivity.
  - unfold CallTool, try_catch in H. cbn [String.eqb Ascii.eqb Bool.eqb] in H.
    rewrite (setupPath_inherited _ st Hp) in H. unfold throw in H.
    injection H as _ <-. reflexivity.
Qed.

End Server.

(** ** [JSON.parse] inverts [JSON.stringify] *)

Lemma append_String (c : ascii) (a b : string) : String c a +:+ b = String c (a +:+ b).
Proof. reflexivity. Qed.
Lemma append_empty_l (b : string) : "" +:+ b = b.
Proof. reflexivity. Qed.
Lemma append_associative (a b c : string) : (a +:+ b) +:+ c = a +:+ (b +:+ c).
Proof. induction a as [| x a IH]; [reflexivity |]. rewrite !append_String, IH. reflexivity. Qed.

Lemma quote_char_parse (c : ascii) (r : string) :
  parse_string_body (quote_char c +:+ r)
  = match parse_string_body r with
    | Some (t, rest) => Some (String c t, rest)
    | None => None
    end.
Proof.
  destruct c as [[] [] [] [] [] [] [] []]; reflexivity.
Qed.

Lemma quote_body_parse (s rest : string) :
  parse_string_body (quote_body s +:+ String dquote rest) = Some (s, rest).
Proof.
  induction s as [| c s IH]; [reflexivity |].
  cbn [quote_body]. rewrite append_associative, quote_char_parse, IH. reflexivity.
Qed.

Lemma skip_ws_indent (indent s : string) :
  all_spaces indent = true -> skip_ws (indent +:+ s) = skip_ws s.
Proof.
  induction indent as [| c indent IH]; [reflexivity |].
  cbn [all_spaces]. intros [Hc Hi]%andb_true_iff.
  apply Ascii.eqb_eq in Hc. subst c. rewrite append_String. exact (IH Hi).
Qed.

Lemma skip_ws_line (indent s : string) :
  all_spaces indent = true -> skip_ws (NL +:+ indent +:+ s) = skip_ws s.
Proof.
  intros H. change (NL +:+ indent +:+ s) with (String newline (indent +:+ s)).
  exact (skip_ws_indent indent s H).
Qed.

Lemma skip_ws_value_start (c : ascii) (r : string) :
  is_value_start c = true -> skip_ws (String c r) = String c r.
Proof.
  destruct c as [[] [] [] [] [] [] [] []]; intros H; try discriminate H; reflexivity.
Qed.

Lemma parse_value_ws (fuel : nat) (s s' : string) :
  skip_ws s = skip_ws s' -> parse_value fuel s = parse_value fuel s'.
Proof.
  intros H. destruct fuel as [| fuel]; [reflexivity |].
  cbn [parse_value]. rewrite H. reflexivity.
Qed.

Lemma parse_members_ws (fuel : nat) (s s' : string) :
  skip_ws s = skip_ws s' -> parse_members fuel s = parse_members fuel s'.
Proof.
  intros H. destruct fuel as [| fuel]; [reflexivity |].
  cbn [parse_members]. rewrite H. reflexivity.
Qed.

Lemma serialize_starts (indent : string) (v : JSON) :
  number_free v = true ->
  exists c r, SerializeJSON indent v = String c r /\ is_value_start c = true.
Proof.
  destruct v as [| [] | l | s | [| x xs] | [| kv ms]]; intros H; try discriminate H;
    eexists _, _; (split; [reflexivity | reflexivity]).
Qed.

Lemma strip_prefix_append (p rest : string) : strip_prefix p (p +:+ rest) = Some rest.
Proof. unfold strip_prefix. rewrite prefix_append, substring_after. reflexivity. Qed.

Lemma parse_value_null (f : nat) (rest : string) :
  parse_value (S f) ("null" +:+ rest) = Some (JNull, rest).
Proof.
  change (parse_value (S f) ("null" +:+ rest))
    with (match strip_prefix "ull" ("ull" +:+ rest) with
          | Some r => Some (JNull, r)
          | None => None
          end).
  rewrite strip_prefix_append. reflexivity.
Qed.

Lemma parse_value_true (f : nat) (rest : string) :
  parse_value (S f) ("true" +:+ rest) = Some (JBool true, rest).
Proof.
  change (parse_value (S f) ("true" +:+ rest))
    with (match strip_prefix "rue" ("rue" +:+ rest) with
          | Some r => Some (JBool true, r)
          | None => None
          end).
  rewrite strip_prefix_append. reflexivity.
Qed.

Lemma parse_value_false (f : nat) (rest : string) :
  parse_value (S f) ("false" +:+ rest) = Some (JBool false, rest).
Proof.
  change (parse_value (S f) ("false" +:+ rest))
    with (match strip_prefix "alse" ("alse" +:+ rest) with
          | Some r => Some (JBool false, r)
          | None => None
          end).
  rewrite strip_prefix_append. reflexivity.
Qed.

Lemma parse_value_string (f : nat) (s rest : string) :
  parse_value (S f) (QuoteJSONString s +:+ rest) = Some (JString s, rest).
Proof.
  unfold QuoteJSONString. rewrite append_String, append_associative, append_String, append_empty_l.
  change (parse_value (S f) (String dquote (quote_body s +:+ String dquote rest)))
    with (match parse_string_body (quote_body s +:+ String dquote rest) with
          | Some (t, r) => Some (JString t, r)
          | None => None
          end).
  rewrite quote_body_parse. reflexivity.
Qed.

Lemma parse_value_array (f : nat) (r : string) (c : ascii) (r' : string) :
  skip_ws r = String c r' -> is_value_start c = true ->
  parse_value (S f) (String "[" r)
  = match parse_elements f r with
    | Some (vs, rest) => Some (JArray vs, rest)
    | None => None
    end.
Proof.
  intros H Hc.
  change (parse_value (S f) (String "[" r))
    with (match skip_ws r with
          | String "]" r1 => Some (JArray [], r1)
          | _ => match parse_elements f r with
                 | Some (vs, rest) => Some (JArray vs, rest)
                 | None => None
                 end
          end).
  rewrite H.
  destruct c as [[] [] [] [] [] [] [] []]; try discriminate Hc; reflexivity.
Qed.

Lemma parse_value_object (f : nat) (r : string) (r' : string) :
  skip_ws r = String dquote r' ->
  parse_value (S f) (String "{" r)
  = match parse_members f r with
    | Some (ms, rest) => Some (JObject ms, rest)
    | None => None
    end.
Proof.
  intros H.
  change (parse_value (S f) (String "{" r))
    with (match skip_ws r with
          | String "}" r1 => Some (JObject [], r1)
          | _ => match parse_members f r with
                 | Some (ms, rest) => Some (JObject ms, rest)
                 | None => None
                 end
          end).
  rewrite H. reflexivity.
Qed.

Lemma parse_members_step (f : nat) (s k r2 : string) :
  skip_ws s = String dquote (quote_body k +:+ String dquote (String ":" r2)) ->
  parse_members (S f) s
  = match parse_value f r2 with
    | Some (v, r3) =>
        match skip_ws r3 with
        | String "," r4 =>
            match parse_members f r4 with
            | Some (ms, rest) => Some ((k, v) :: ms, rest)
            | None => None
            end
        | String "}" r4 => Some ([(k, v)], r4)
        | _ => None
        end
    | None => None
    end.
Proof.
  intros H. cbn [parse_members]. rewrite H.
  change (nat_of_ascii dquote =? 34) with true. cbv iota.
  rewrite quote_body_parse. reflexivity.
Qed.

Section RoundTrip.

Variables (indent stepback rest : string).
Hypothesis indent_spaces : all_spaces indent = true.
Hypothesis stepback_spaces : all_spaces stepback = true.

Lemma parse_elements_join (xs : list JSON) :
  forall (x : JSON) (fuel : nat),
    Forall item_ok (x :: xs) ->
    forallb number_free (x :: xs) = true ->
    list_sum (map (fun y => S (json_size y)) (x :: xs)) <= fuel ->
    parse_elements fuel
      (NL +:+ indent
       +:+ join ("," +:+ NL +:+ indent) (map (SerializeJSON indent) (x :: xs))
       +:+ NL +:+ stepback +:+ "]" +:+ rest)
    = Some (x :: xs, rest).
Proof.
  induction xs as [| y ys IH]; intros x fuel Hok Hnf Hfuel.
  - cbn [map list_sum fold_right forallb] in *. rewrite andb_true_r in Hnf.
    destruct fuel as [| f]; [lia |].
    cbn [parse_elements join].
    rewrite (parse_value_ws f _ _ (skip_ws_line indent _ indent_spaces)).
    apply Forall_inv in Hok.
    rewrite (Hok Hnf indent _ f indent_spaces ltac:(lia)).
    rewrite (skip_ws_line stepback _ stepback_spaces). reflexivity.
  - cbn [map list_sum fold_right forallb] in Hnf, Hfuel.
    apply andb_true_iff in Hnf as [Hx Hrest].
    destruct fuel as [| f]; [lia |].
    pose proof (Forall_inv Hok) as Hokx. pose proof (Forall_inv_tail Hok) as Hoktl.
    cbn [parse_elements map].
    change (join ("," +:+ NL +:+ indent)
              (SerializeJSON indent x :: SerializeJSON indent y :: map (SerializeJSON indent) ys))
      with (SerializeJSON indent x +:+ ("," +:+ NL +:+ indent)
            +:+ join ("," +:+ NL +:+ indent) (map (SerializeJSON indent) (y :: ys))).
    rewrite (parse_value_ws f _ _ (skip_ws_line indent _ indent_spaces)).
    rewrite !append_associative.
    rewrite (Hokx Hx indent _ f indent_spaces ltac:(lia)).
    rewrite append_String, append_empty_l.
    change (skip_ws (String "," ?r)) with (String "," r).
    cbv beta iota.
    rewrite (IH y f Hoktl Hrest ltac:(cbn [map list_sum fold_right]; lia)). reflexivity.
Qed.

End RoundTrip.

Lemma parse_members_join (indent stepback rest : string) :
  all_spaces indent = true -> all_spaces stepback = true ->
  forall (ms : list (string * JSON)) (m : string * JSON) (fuel : nat),
    Forall (fun kv => item_ok (snd kv)) (m :: ms) ->
    forallb (fun kv => number_free (snd kv)) (m :: ms) = true ->
    list_sum (map (fun kv => S (json_size (snd kv))) (m :: ms)) <= fuel ->
    parse_members fuel
      (NL +:+ indent
       +:+ join ("," +:+ NL +:+ indent)
             (map (fun kv => QuoteJSONString (fst kv) +:+ ": " +:+ SerializeJSON indent (snd kv))
                  (m :: ms))
       +:+ NL +:+ stepback +:+ "}" +:+ rest)
    = Some (m :: ms, rest).
Proof.
  intros indent_spaces stepback_spaces.
  induction ms as [| m' ms IH]; intros [k v] fuel Hok Hnf Hfuel.
  - cbn [map list_sum fold_right forallb fst snd] in *. rewrite andb_true_r in Hnf.
    destruct fuel as [| f]; [lia |].
    cbn [join].
    rewrite (parse_members_step f _ k (" " +:+ SerializeJSON indent v +:+ NL +:+ stepback +:+ "}" +:+ rest)).
    2:{ rewrite (skip_ws_line indent _ indent_spaces). unfold QuoteJSONString.
        rewrite !append_associative, !append_String, !append_associative, !append_String, !append_empty_l.
        apply skip_ws_value_start. reflexivity. }
    apply Forall_inv in Hok. cbn [snd] in Hok.
    rewrite (parse_value_ws f (" " +:+ SerializeJSON indent v +:+ NL +:+ stepback +:+ "}" +:+ rest)
               (SerializeJSON indent v +:+ NL +:+ stepback +:+ "}" +:+ rest) eq_refl).
    rewrite (Hok Hnf indent _ f indent_spaces ltac:(lia)).
    rewrite (skip_ws_line stepback _ stepback_spaces). reflexivity.
  - cbn [map list_sum fold_right forallb fst snd] in Hnf, Hfuel.
    apply andb_true_iff in Hnf as [Hx Hrest].
    destruct fuel as [| f]; [lia |].
    pose proof (Forall_inv Hok) as Hokx. pose proof (Forall_inv_tail Hok) as Hoktl.
    cbn [snd] in Hokx.
    set (member := fun kv : string * JSON =>
                     QuoteJSONString (fst kv) +:+ ": " +:+ SerializeJSON indent (snd kv)) in *.
    change (join ("," +:+ NL +:+ indent) (map member ((k, v) :: m' :: ms)))
      with (member (k, v) +:+ ("," +:+ NL +:+ indent)
            +:+ join ("," +:+ NL +:+ indent) (map member (m' :: ms))).
    set (tail := join ("," +:+ NL +:+ indent) (map member (m' :: ms))
                 +:+ NL +:+ stepback +:+ "}" +:+ rest).
    rewrite (parse_members_step f _ k
               (" " +:+ SerializeJSON indent v +:+ "," +:+ NL +:+ indent +:+ tail)).
    2:{ rewrite (skip_ws_line indent _ indent_spaces). unfold member, QuoteJSONString, tail.
        cbn [fst snd].
        rewrite !append_associative, !append_String, !append_associative, !append_String, !append_empty_l.
        apply skip_ws_value_start. reflexivity. }
    rewrite (parse_value_ws f (" " +:+ SerializeJSON indent v +:+ "," +:+ NL +:+ indent +:+ tail)
               (SerializeJSON indent v +:+ "," +:+ NL +:+ indent +:+ tail) eq_refl).
    rewrite (Hokx Hx indent _ f indent_spaces ltac:(lia)).
    rewrite append_String, append_empty_l.
    change (skip_ws (String "," ?r)) with (String "," r). cbv beta iota.
    unfold tail.
    rewrite (IH m' f Hoktl Hrest ltac:(cbn [map list_sum fold_right]; lia)). reflexivity.
Qed.

Lemma append_empty_r (s : string) : s +:+ "" = s.
Proof. induction s as [| c s IH]; [reflexivity |]. rewrite append_String, IH. reflexivity. Qed.

Lemma all_spaces_gap (indent : string) :
  all_spaces indent = true -> all_spaces (indent +:+ gap) = true.
Proof.
  induction indent as [| c indent IH]; [reflexivity |].
  rewrite append_String. cbn [all_spaces]. intros [Hc Hi]%andb_true_iff.
  rewrite Hc, (IH Hi). reflexivity.
Qed.

Lemma serialize_round_trips (v : JSON) : item_ok v.
Proof.
  induction v as [| b | l | s | items IH | members IH] using JSON_nested_ind;
    intros Hnf indent rest fuel Hind Hfuel.
  - destruct fuel as [| f]; [cbn in Hfuel; lia |]. apply parse_value_null.
  - destruct fuel as [| f]; [cbn in Hfuel; lia |].
    destruct b; [apply parse_value_true | apply parse_value_false].
  - discriminate Hnf.
  - destruct fuel as [| f]; [cbn in Hfuel; lia |]. apply parse_value_string.
  - destruct items as [| x xs].
    { destruct fuel as [| f]; [cbn in Hfuel; lia |]. reflexivity. }
    cbn [json_size] in Hfuel. destruct fuel as [| f]; [lia |].
    pose proof (all_spaces_gap indent Hind) as Hind'.
    set (deeper := indent +:+ gap) in *.
    change (SerializeJSON indent (JArray (x :: xs)))
      with ("[" +:+ NL +:+ deeper
            +:+ join ("," +:+ NL +:+ deeper) (map (SerializeJSON deeper) (x :: xs))
            +:+ NL +:+ indent +:+ "]").
    rewrite !append_associative, append_String, append_empty_l.
    cbn [number_free] in Hnf.
    destruct (serialize_starts deeper x) as (c & r & Hser & Hc).
    { cbn [forallb] in Hnf. apply andb_true_iff in Hnf as [Hx _]. exact Hx. }
    rewrite (parse_value_array f _ c
               (r +:+ match xs with
                      | [] => ""
                      | _ => ("," +:+ NL +:+ deeper)
                             +:+ join ("," +:+ NL +:+ deeper) (map (SerializeJSON deeper) xs)
                      end +:+ NL +:+ indent +:+ "]" +:+ rest)).
    + rewrite (parse_elements_join deeper indent rest Hind' Hind xs x f IH Hnf ltac:(lia)).
      reflexivity.
    + rewrite (skip_ws_line deeper _ Hind').
      destruct xs as [| y ys]; cbn [map join]; rewrite Hser, ?append_associative, append_String;
        apply (skip_ws_value_start c _ Hc).
    + exact Hc.
  - destruct members as [| [k v] ms].
    { destruct fuel as [| f]; [cbn in Hfuel; lia |]. reflexivity. }
    cbn [json_size] in Hfuel. destruct fuel as [| f]; [lia |].
    pose proof (all_spaces_gap indent Hind) as Hind'.
    set (deeper := indent +:+ gap) in *.
    set (member := fun kv : string * JSON =>
                     QuoteJSONString (fst kv) +:+ ": " +:+ SerializeJSON deeper (snd kv)).
    change (SerializeJSON indent (JObject ((k, v) :: ms)))
      with ("{" +:+ NL +:+ deeper
            +:+ join ("," +:+ NL +:+ deeper) (map member ((k, v) :: ms))
            +:+ NL +:+ indent +:+ "}").
    rewrite !append_associative, append_String, append_empty_l.
    cbn [number_free] in Hnf.
    rewrite (parse_value_object f _
               (quote_body k +:+ String dquote "" +:+ ": " +:+ SerializeJSON deeper v
                +:+ match ms with
                    | [] => ""
                    | _ => ("," +:+ NL +:+ deeper)
                           +:+ join ("," +:+ NL +:+ deeper) (map member ms)
                    end +:+ NL +:+ indent +:+ "}" +:+ rest)).
    + unfold member.
      rewrite (parse_members_join deeper indent rest Hind' Hind ms (k, v) f IH Hnf ltac:(lia)).
      reflexivity.
    + rewrite (skip_ws_line deeper _ Hind').
      destruct ms as [| m' ms']; cbn [map join]; unfold member at 1, QuoteJSONString;
        cbn [fst snd]; rewrite ?append_associative, ?append_String, ?append_associative;
        apply skip_ws_value_start; reflexivity.
Qed.

Lemma length_of_append (a b : string) :
  String.length (a +:+ b) = String.length a + String.length b.
Proof.
  induction a as [| c a IH]; [reflexivity |].
  rewrite append_String. cbn [String.length]. rewrite IH. reflexivity.
Qed.

Lemma join_length_bound {A : Type} (size : A -> nat) (render : A -> string) (sep : string)
    (items : list A) :
  1 <= String.length sep ->
  Forall (fun x => size x <= String.length (render x)) items ->
  list_sum (map (fun x => S (size x)) items) <= String.length (join sep (map render items)) + 1.
Proof.
  intros Hsep. induction items as [| x [| y ys] IH]; intros H.
  - cbn. lia.
  - apply Forall_inv in H. cbv beta in H. cbn [map list_sum fold_right join]. lia.
  - pose proof (Forall_inv H) as Hx. apply Forall_inv_tail in H. specialize (IH H).
    change (join sep (map render (x :: y :: ys)))
      with (render x +:+ sep +:+ join sep (map render (y :: ys))).
    rewrite !length_of_append.
    change (list_sum (map (fun x => S (size x)) (x :: y :: ys)))
      with (S (size x) + list_sum (map (fun x => S (size x)) (y :: ys))).
    cbv beta in Hx. lia.
Qed.

Lemma json_size_le_length (v : JSON) : size_bounded v.
Proof.
  induction v as [| b | l | s | items IH | members IH] using JSON_nested_ind;
    intros Hnf indent.
  - cbn. lia.
  - destruct b; cbn; lia.
  - discriminate Hnf.
  - cbn [json_size SerializeJSON]. unfold QuoteJSONString. cbn [String.length]. lia.
  - destruct items as [| x xs]; [cbn; lia |].
    set (deeper := indent +:+ gap).
    change (SerializeJSON indent (JArray (x :: xs)))
      with ("[" +:+ NL +:+ deeper
            +:+ join ("," +:+ NL +:+ deeper) (map (SerializeJSON deeper) (x :: xs))
            +:+ NL +:+ indent +:+ "]").
    cbn [json_size number_free] in *.
    pose proof (join_length_bound json_size (SerializeJSON deeper) ("," +:+ NL +:+ deeper) (x :: xs)) as B.
    rewrite !length_of_append in *. cbn [String.length] in *.
    assert (Hall : Forall (fun y => json_size y <= String.length (SerializeJSON deeper y)) (x :: xs)).
    { clear B. revert Hnf IH. generalize (x :: xs). intros l Hnf IH.
      induction l as [| y l IHl]; [constructor |].
      cbn [forallb] in Hnf. apply andb_true_iff in Hnf as [Hy Hl].
      constructor; [exact (Forall_inv IH Hy deeper) | exact (IHl Hl (Forall_inv_tail IH))]. }
    specialize (B ltac:(lia) Hall). lia.
  - destruct members as [| m ms]; [cbn; lia |].
    set (deeper := indent +:+ gap).
    set (member := fun kv : string * JSON =>
                     QuoteJSONString (fst kv) +:+ ": " +:+ SerializeJSON deeper (snd kv)).
    change (SerializeJSON indent (JObject (m :: ms)))
      with ("{" +:+ NL +:+ deeper
            +:+ join ("," +:+ NL +:+ deeper) (map member (m :: ms))
            +:+ NL +:+ indent +:+ "}").
    cbn [json_size number_free] in *.
    pose proof (join_length_bound (fun kv => json_size (snd kv)) member ("," +:+ NL +:+ deeper) (m :: ms)) as B.
    rewrite !length_of_append in *. cbn [String.length] in *.
    assert (Hall : Forall (fun kv => json_size (snd kv) <= String.length (member kv)) (m :: ms)).
    { clear B. revert Hnf IH. generalize (m :: ms). intros l Hnf IH.
      induction l as [| y l IHl]; [constructor |].
      cbn [forallb] in Hnf. apply andb_true_iff in Hnf as [Hy Hl].
      constructor; [| exact (IHl Hl (Forall_inv_tail IH))].
      unfold member. rewrite !length_of_append.
      pose proof (Forall_inv IH Hy deeper). lia. }
    specialize (B ltac:(lia) Hall). lia.
Qed.

Theorem JSON_round_trip (v : JSON) :
  number_free v = true -> JSON_parse (JSON_stringify v) = Some v.
Proof.
  intros H. unfold JSON_parse, JSON_stringify.
  pose proof (serialize_round_trips v H "" "" (2 * String.length (SerializeJSON "" v) + 2) eq_refl) as E.
  rewrite append_empty_r in E. rewrite E; [reflexivity |].
  pose proof (json_size_le_length v H ""). lia.
Qed.

(** ** The payloads of the handlers *)

Section Shapes.
Variable rt : Runtime.

Lemma checkCompatibility_structured (st : State) (r : Response) (st' : State) :
  checkCompatibility rt st = (Return r, st') -> structured r.
Proof.
  unfold checkCompatibility, ret. intros H. injection H as <- <-. structured_payload.
Qed.

Lemma installAvalancheCLI_structured (f : bool) (st : State) (r : Response) (st' : State) :
  installAvalancheCLI rt f st = (Return r, st') ->
  structured r \/ r = text_response already_installed_text.
Proof.
  unfold installAvalancheCLI, try_catch, bind, execAsync, fs_access, fs_mkdir. intros H.
  split_handler H; injection H as <- <-;
    (left; structured_payload) || (right; reflexivity).
Qed.

Lemma checkInstallation_structured (st : State) (r : Response) (st' : State) :
  checkInstallation rt st = (Return r, st') -> structured r.
Proof.
  unfold checkInstallation, try_catch, bind, execAsync. intros H.
  split_handler H; injection H as <- <-; structured_payload.
Qed.

Lemma setupPath_structured (sh : option string) (st : State) (r : Response) (st' : State) :
  setupPath rt sh st = (Return r, st') -> structured r.
Proof.
  unfold setupPath, path_join_property, try_catch, bind, fs_readFile, fs_appendFile. intros H.
  split_handler H; try discriminate H; injection H as <- <-; structured_payload.
Qed.

Lemma updateAvalancheCLI_structured (st : State) (r : Response) (st' : State) :
  updateAvalancheCLI rt st = (Return r, st') -> structured r.
Proof.
  unfold updateAvalancheCLI, probe_version, try_catch, bind, execAsync, fs_access, fs_unlink.
  intros H.
  split_handler H; injection H as <- <-; structured_payload.
Qed.

Lemma getBuildFromSourceInfo_structured (tg : option string) (st : State) (r : Response) (st' : State) :
  getBuildFromSourceInfo tg st = (Return r, st') -> structured r.
Proof.
  unfold getBuildFromSourceInfo, ret. intros H. injection H as <- <-.
  exists (build_info tg). split; [| reflexivity]. reflexivity.
Qed.

Lemma getInstallationInfo_structured (st : State) (r : Response) (st' : State) :
  getInstallationInfo st = (Return r, st') -> structured r.
Proof.
  unfold getInstallationInfo, ret. intros H. injection H as <- <-.
  exists installation_info. split; reflexivity.
Qed.

(** X18: every response the dispatcher returns is a single text item
    holding [JSON.stringify] of a value that [JSON.parse] gives back,
    except the advice of [install] that the tool is already there. *)
Theorem CallTool_payload_round_trip
    (name : string) (args : option ToolArgs) (st : State) (r : Response) (st' : State) :
  CallTool rt name args st = (Return r, st') ->
  (exists v, r = json_response v /\ JSON_parse (JSON_stringify v) = Some v)
  \/ r = text_response already_installed_text.
Proof.
  assert (S : forall r0, structured r0 ->
                exists v, r0 = json_response v /\ JSON_parse (JSON_stringify v) = Some v).
  { intros r0 (v & Hv & ->). exists v. split; [reflexivity | exact (JSON_round_trip v Hv)]. }
  unfold CallTool, try_catch, throw. intros H.
  repeat match type of H with
         | context [if String.eqb name ?n then _ else _] => destruct (String.eqb name n)
         end;
    match type of H with
    | context [match ?h st with _ => _ end] =>
        destruct (h st) as [[r0 | e] st0] eqn:E; [| discriminate H]
    | _ => discriminate H
    end;
    injection H as <- <-.
  - left. exact (S _ (checkCompatibility_structured _ _ _ E)).
  - destruct (installAvalancheCLI_structured _ _ _ _ E) as [Hs | ->];
      [left; exact (S _ Hs) | right; reflexivity].
  - left. exact (S _ (checkInstallation_structured _ _ _ E)).
  - left. exact (S _ (setupPath_structured _ _ _ _ E)).
  - left. exact (S _ (getInstallationInfo_structured _ _ _ E)).
  - left. exact (S _ (updateAvalancheCLI_structured _ _ _ E)).
  - left. exact (S _ (getBuildFromSourceInfo_structured _ _ _ _ E)).
Qed.

End Shapes.

(** ** The theorems at concrete hosts *)

Lemma checkCompatibility_on_win32 :
  fst (checkCompatibility (host "win32" oracle_bare) fresh_home)
  = Return (json_response (compatibility_payload (host "win32" oracle_bare) false)).
Proof. reflexivity. Qed.

Lemma install_unsupported_platform_witness :
  ~ supported_platform (os_platform (host "win32" oracle_installed))
  /\ CallTool (host "win32" oracle_installed) "install_avalanche_cli" None home_with_binary
     = (Return (json_response (JObject
          [ ("success", JBool false); ("error", JString unsupported_platform_text) ])),
        home_with_binary).
Proof.
  assert (H : ~ supported_platform (os_platform (host "win32" oracle_installed))).
  { intros [H | H]; discriminate H. }
  split; [exact H |].
  exact (proj2 (install_unsupported_platform (host "win32" oracle_installed) None home_with_binary H)).
Defined.

Lemma update_binary_absent_witness :
  nodes (world fresh_home) !! binaryPath (host "linux" oracle_installed) = None
  /\ updateAvalancheCLI (host "linux" oracle_installed) fresh_home
     = (Return (json_response not_found_payload),
        log (EvAccess "/home/ava/bin/avalanche") fresh_home).
Proof.
  assert (H : nodes (world fresh_home) !! binaryPath (host "linux" oracle_installed) = None).
  { vm_compute. reflexivity. }
  split; [exact H |].
  exact (proj1 (update_binary_absent (host "linux" oracle_installed) fresh_home H)).
Defined.

Lemma install_short_circuit_witness :
  supported_platform (os_platform (host "linux" oracle_installed))
  /\ installAvalancheCLI (host "linux" oracle_installed) false home_with_binary
     = (Return (text_response already_installed_text),
        {| world := world home_with_binary; trace := [EvExec "which avalanche"] |}).
Proof.
  assert (H : supported_platform (os_platform (host "linux" oracle_installed))).
  { left. reflexivity. }
  split; [exact H |].
  exact (proj1 (install_short_circuit (host "linux" oracle_installed) home_with_binary
                  ("/usr/local/bin/avalanche" +:+ NL) "" (world home_with_binary)
                  H eq_refl)).
Defined.

(** C7 as stated fails: on FreeBSD with the tool on the command path and
    [force] false, [install] answers with the unsupported-platform
    failure, not with the advice. *)
Lemma install_short_circuit_counterexample :
  ~ (forall (rt : Runtime) (st : State) (stdout stderr : string) (w : World),
       exec_oracle rt "which avalanche" (world st) = (ExecOk stdout stderr, w) ->
       fst (installAvalancheCLI rt false st) = Return (text_response already_installed_text)).
Proof.
  intros H.
  specialize (H (host "freebsd" oracle_installed) home_with_binary
                ("/usr/local/bin/avalanche" +:+ NL) "" (world home_with_binary) eq_refl).
  vm_compute in H. discriminate H.
Qed.

Lemma install_short_circuit_not_json_witness :
  supported_platform (os_platform (host "darwin" oracle_installed))
  /\ fst (CallTool (host "darwin" oracle_installed) "install_avalanche_cli" None home_with_binary)
     = Return (text_response already_installed_text)
  /\ JSON_parse already_installed_text = None.
Proof.
  assert (H : supported_platform (os_platform (host "darwin" oracle_installed))).
  { right. reflexivity. }
  split; [exact H |].
  destruct (install_short_circuit_not_json (host "darwin" oracle_installed) None home_with_binary
              ("/usr/local/bin/avalanche" +:+ NL) "" (world home_with_binary)
              H eq_refl eq_refl) as (r & Hr & _ & Hparse).
  split; [reflexivity | exact Hparse].
Defined.

Lemma unknown_tool_internal_error_witness :
  ("uninstall" ∉ registered_names)
  /\ CallTool (host "linux" oracle_bare) "uninstall" None fresh_home
     = (Throw (McpError InternalError "MCP error -32603: MCP error -32601: Unknown tool: uninstall"),
        fresh_home).
Proof.
  assert (H : "uninstall" ∉ registered_names).
  { apply (bool_decide_unpack _). vm_compute. exact I. }
  split; [exact H |].
  exact (proj1 (unknown_tool_internal_error (host "linux" oracle_bare) "uninstall" None fresh_home H)).
Defined.

Lemma update_not_atomic_witness :
  is_Some (nodes (world home_with_binary) !! binaryPath (host "linux" oracle_installed))
  /\ updateAvalancheCLI (host "linux" oracle_installed) home_with_binary
     = (Return (json_response (failure_payload (JsError ("Command failed: " +:+ installCommand)))),
        {| world := without_binary (host "linux" oracle_installed) (world home_with_binary);
           trace := [ EvAccess "/home/ava/bin/avalanche"; EvExec "avalanche --version";
                      EvUnlink "/home/ava/bin/avalanche"; EvExec installCommand ] |})
  /\ nodes (world (snd (updateAvalancheCLI (host "linux" oracle_installed) home_with_binary)))
       !! "/home/ava/bin/avalanche" = None.
Proof.
  assert (H : is_Some (nodes (world home_with_binary) !! binaryPath (host "linux" oracle_installed))).
  { exists (File "binary"). vm_compute. reflexivity. }
  split; [exact H |].
  destruct (update_not_atomic (host "linux" oracle_installed) home_with_binary
              (ExecOk ("avalanche version 1.8.4" +:+ NL) "") (world home_with_binary)
              (without_binary (host "linux" oracle_installed) (world home_with_binary))
              "binary" ("Command failed: " +:+ installCommand)
              H eq_refl eq_refl eq_refl) as (E & _ & Hgone).
  split; [exact E | exact (Hgone eq_refl)].
Defined.

Lemma setupPath_idempotent_witness :
  (effective_shell (host "linux" oracle_bare) (Some "bash") ∈ Object_keys shellConfigs)
  /\ (forall content,
        nodes (world fresh_home)
        !! config_path (host "linux" oracle_bare)
             (effective_shell (host "linux" oracle_bare) (Some "bash"))
        <> Some (AppendOnly content))
  /\ world (snd (setupPath (host "linux" oracle_bare) (Some "bash")
                   (snd (setupPath (host "linux" oracle_bare) (Some "bash") fresh_home))))
     = world (snd (setupPath (host "linux" oracle_bare) (Some "bash") fresh_home))
  /\ nodes (world (snd (setupPath (host "linux" oracle_bare) (Some "bash") fresh_home)))
       !! "/home/ava/.bashrc"
     = Some (File (NL +:+ "# Added by Avalanche CLI MCP Server" +:+ NL
                   +:+ "export PATH=~/bin:$PATH" +:+ NL)).
Proof.
  assert (H : effective_shell (host "linux" oracle_bare) (Some "bash") ∈ Object_keys shellConfigs).
  { apply (bool_decide_unpack _). vm_compute. exact I. }
  assert (Hreadable : forall content,
            nodes (world fresh_home)
            !! config_path (host "linux" oracle_bare)
                 (effective_shell (host "linux" oracle_bare) (Some "bash"))
            <> Some (AppendOnly content)).
  { intros content. vm_compute. discriminate. }
  split; [exact H |]. split; [exact Hreadable |].
  split; [exact (proj1 (setupPath_idempotent (host "linux" oracle_bare) (Some "bash")
                          fresh_home H Hreadable)) |].
  vm_compute. reflexivity.
Defined.

(** At a configuration file that can be appended to but not read, a
    second call is not a no-op: it appends the block once more, and the
    file system after it differs from the one after the first call. *)
Lemma setupPath_twice_differs_when_unreadable :
  ~ (forall (rt : Runtime) (shell : option string) (st : State),
       effective_shell rt shell ∈ Object_keys shellConfigs ->
       world (snd (setupPath rt shell (snd (setupPath rt shell st))))
       = world (snd (setupPath rt shell st))).
Proof.
  intros Hidem.
  assert (Hs : effective_shell (host "linux" oracle_bare) (Some "bash")
               ∈ Object_keys shellConfigs).
  { apply (bool_decide_unpack _). vm_compute. exact I. }
  specialize (Hidem (host "linux" oracle_bare) (Some "bash") home_with_unreadable_bashrc Hs).
  apply (f_equal (fun w => nodes w !! "/home/ava/.bashrc")) in Hidem.
  vm_compute in Hidem. discriminate Hidem.
Qed.

Lemma build_from_source_tag_witness :
  "v1.2.3" <> ""
  /\ checkout_tags (build_steps (Some "v1.2.3")) = ["v1.2.3"]
  /\ checkout_tags (build_commands (Some "v1.2.3")) = ["v1.2.3"].
Proof.
  assert (H : "v1.2.3" <> "") by discriminate.
  split; [exact H |].
  destruct (build_from_source_tag "v1.2.3" fresh_home H)
    as (_ & _ & Hs & Hc & _).
  split; [exact Hs | exact Hc].
Defined.

(** C3 as stated fails: without a tag, no single placeholder is the tag
    argument of both the [steps] entry and the [commands] entry. *)
Lemma build_from_source_placeholder_counterexample :
  ~ (exists token : string,
       checkout_tags (build_steps None) = [token]
       /\ checkout_tags (build_commands None) = [token]).
Proof.
  intros (token & Hs & Hc). vm_compute in Hs, Hc. congruence.
Qed.

(** The payloads built with [JSON.stringify] parse back to the value that
    was serialised. *)
Lemma build_info_round_trip :
  JSON_parse (JSON_stringify (build_info (Some "v1.2.3"))) = Some (build_info (Some "v1.2.3")).
Proof. vm_compute. reflexivity. Qed.

Lemma installation_info_round_trip :
  JSON_parse (JSON_stringify installation_info) = Some installation_info.
Proof. vm_compute. reflexivity. Qed.

Lemma failure_payload_round_trip :
  JSON_parse (JSON_stringify (failure_payload (JsError ("Command failed: " +:+ NL +:+ quoted "sh"))))
  = Some (failure_payload (JsError ("Command failed: " +:+ NL +:+ quoted "sh"))).
Proof. vm_compute. reflexivity. Qed.

(** ** The further properties at concrete hosts *)

Lemma checkInstallation_installed_witness :
  exec_oracle (host "linux" oracle_installed) "avalanche --version" (world fresh_home)
  = (ExecOk ("avalanche version 1.8.4" +:+ NL) "", world fresh_home)
  /\ fst (checkInstallation (host "linux" oracle_installed) fresh_home)
     = Return (json_response (JObject
         [ ("installed", JBool true);
           ("version", JString "avalanche version 1.8.4");
           ("path", JString "/usr/local/bin/avalanche") ])).
Proof.
  split; [reflexivity |].
  rewrite (checkInstallation_installed (host "linux" oracle_installed) fresh_home
             ("avalanche version 1.8.4" +:+ NL) "" ("/usr/local/bin/avalanche" +:+ NL) ""
             (world fresh_home) (world fresh_home) eq_refl eq_refl).
  vm_compute. reflexivity.
Defined.

Lemma checkInstallation_version_fails_witness :
  exec_oracle (host "linux" oracle_bare) "avalanche --version" (world fresh_home)
  = (ExecFail "Command failed: avalanche --version", world fresh_home)
  /\ checkInstallation (host "linux" oracle_bare) fresh_home
     = (Return (json_response not_installed_payload),
        {| world := world fresh_home; trace := [EvExec "avalanche --version"] |}).
Proof.
  split; [reflexivity |].
  exact (checkInstallation_version_fails (host "linux" oracle_bare) fresh_home
           "Command failed: avalanche --version" (world fresh_home) eq_refl).
Defined.

Lemma checkInstallation_which_fails_witness :
  exec_oracle (host "linux" oracle_off_path) "which avalanche" (world home_with_binary)
  = (ExecFail "Command failed: which avalanche", world home_with_binary)
  /\ checkInstallation (host "linux" oracle_off_path) home_with_binary
     = (Return (json_response not_installed_payload),
        {| world := world home_with_binary;
           trace := [EvExec "avalanche --version"; EvExec "which avalanche"] |}).
Proof.
  split; [reflexivity |].
  exact (checkInstallation_which_fails (host "linux" oracle_off_path) home_with_binary
           ("avalanche version 1.8.4" +:+ NL) "" "Command failed: which avalanche"
           (world home_with_binary) (world home_with_binary) eq_refl eq_refl).
Defined.

Lemma install_forced_witness :
  supported_platform (os_platform (host "linux" oracle_online))
  /\ fst (installAvalancheCLI (host "linux" oracle_online) true fresh_home)
     = Return (json_response (install_success_payload "avalanche-cli installed" ""))
  /\ trace (snd (installAvalancheCLI (host "linux" oracle_online) true fresh_home))
     = [EvAccess "/home/ava/bin"; EvMkdir "/home/ava/bin"; EvExec installCommand]
  /\ nodes (world (snd (installAvalancheCLI (host "linux" oracle_online) true fresh_home)))
       !! "/home/ava/bin" = Some Dir.
Proof.
  assert (H : supported_platform (os_platform (host "linux" oracle_online))).
  { left. reflexivity. }
  split; [exact H |].
  destruct (install_forced (host "linux" oracle_online) fresh_home
              (ExecOk "avalanche-cli installed" "")
              {| nodes := <["/home/ava/bin/avalanche" := File "binary 1.8.5"]>
                            (nodes (world (bin_dir_ensured (host "linux" oracle_online) fresh_home)));
                 outside := 0 |}
              H (fun _ => eq_refl) eq_refl) as (E & _).
  rewrite E. cbn [fst snd trace world nodes].
  split; [reflexivity |]. split; vm_compute; reflexivity.
Defined.

Lemma install_probe_miss_proceeds_witness :
  supported_platform (os_platform (host "darwin" oracle_online))
  /\ installAvalancheCLI (host "darwin" oracle_online) false fresh_home
     = installAvalancheCLI (host "darwin" oracle_online) true
         {| world := world fresh_home; trace := [EvExec "which avalanche"] |}.
Proof.
  assert (H : supported_platform (os_platform (host "darwin" oracle_online))).
  { right. reflexivity. }
  split; [exact H |].
  exact (install_probe_miss_proceeds (host "darwin" oracle_online) fresh_home
           "Command failed: which avalanche" (world fresh_home) H eq_refl).
Defined.

Lemma update_success_witness :
  is_Some (nodes (world home_with_binary) !! binaryPath (host "linux" oracle_online))
  /\ fst (updateAvalancheCLI (host "linux" oracle_online) home_with_binary)
     = Return (json_response
                 (update_success_payload "avalanche version 1.8.4" "avalanche version 1.8.4"
                    "avalanche-cli installed" ""))
  /\ nodes (world (snd (updateAvalancheCLI (host "linux" oracle_online) home_with_binary)))
       !! "/home/ava/bin/avalanche" = Some (File "binary 1.8.5").
Proof.
  assert (H : is_Some (nodes (world home_with_binary) !! binaryPath (host "linux" oracle_online))).
  { exists (File "binary"). vm_compute. reflexivity. }
  split; [exact H |].
  rewrite (update_success (host "linux" oracle_online) home_with_binary
             (ExecOk (" avalanche version 1.8.4" +:+ NL) "")
             (ExecOk (" avalanche version 1.8.4" +:+ NL) "")
             (world home_with_binary)
             {| nodes := <["/home/ava/bin/avalanche" := File "binary 1.8.5"]>
                           (nodes (without_binary (host "linux" oracle_online)
                                     (world home_with_binary)));
                outside := 0 |}
             {| nodes := <["/home/ava/bin/avalanche" := File "binary 1.8.5"]>
                           (nodes (without_binary (host "linux" oracle_online)
                                     (world home_with_binary)));
                outside := 0 |}
             "binary" "avalanche-cli installed" "" H eq_refl eq_refl eq_refl eq_refl).
  split; vm_compute; reflexivity.
Defined.

Lemma update_unlink_fails_witness :
  is_Some (nodes (world home_with_directory_as_binary)
             !! binaryPath (host "linux" oracle_installed))
  /\ updateAvalancheCLI (host "linux" oracle_installed) home_with_directory_as_binary
     = (Return (json_response (failure_payload
                  (errno "EISDIR" "illegal operation on a directory" "unlink"
                     "/home/ava/bin/avalanche"))),
        {| world := world home_with_directory_as_binary;
           trace := [ EvAccess "/home/ava/bin/avalanche"; EvExec "avalanche --version";
                      EvUnlink "/home/ava/bin/avalanche" ] |}).
Proof.
  assert (H : is_Some (nodes (world home_with_directory_as_binary)
                         !! binaryPath (host "linux" oracle_installed))).
  { exists Dir. vm_compute. reflexivity. }
  split; [exact H |].
  destruct (update_unlink_fails (host "linux" oracle_installed) home_with_directory_as_binary
              (ExecOk ("avalanche version 1.8.4" +:+ NL) "")
              (world home_with_directory_as_binary) H eq_refl) as (error & E & _).
  { intros binary Hb. vm_compute in Hb. discriminate Hb. }
  vm_compute. reflexivity.
Defined.

Lemma setupPath_appends_witness :
  (effective_shell (host "linux" oracle_bare) (Some "fish") ∈ Object_keys shellConfigs)
  /\ fs_refuses (host "linux" oracle_bare) (world home_with_fish_directory)
       (EvAppendFile "/home/ava/.config/fish/config.fish"
          (path_block "set -gx PATH ~/bin $PATH")) = None
  /\ nodes (world (snd (setupPath (host "linux" oracle_bare) (Some "fish")
                          home_with_fish_directory)))
       !! "/home/ava/.config/fish/config.fish"
     = Some (File (NL +:+ "# Added by Avalanche CLI MCP Server" +:+ NL
                   +:+ "set -gx PATH ~/bin $PATH" +:+ NL)).
Proof.
  assert (H : effective_shell (host "linux" oracle_bare) (Some "fish") ∈ Object_keys shellConfigs).
  { apply (bool_decide_unpack _). vm_compute. exact I. }
  split; [exact H |]. split; [vm_compute; reflexivity |].
  rewrite (setupPath_appends (host "linux" oracle_bare) (Some "fish")
             home_with_fish_directory H).
  - vm_compute. reflexivity.
  - vm_compute. reflexivity.
  - vm_compute. discriminate.
  - intros content. vm_compute. discriminate.
  - vm_compute. reflexivity.
Defined.

Lemma setupPath_append_refused_witness :
  (effective_shell (host "linux" oracle_bare) (Some "fish") ∈ Object_keys shellConfigs)
  /\ setupPath (host "linux" oracle_bare) (Some "fish") fresh_home
     = (Return (json_response
                  (failure_payload
                     (JsError ("ENOENT: no such file or directory, open "
                               +:+ "'/home/ava/.config/fish/config.fish'")))),
        {| world := world fresh_home;
           trace := [EvReadFile "/home/ava/.config/fish/config.fish";
                     EvAppendFile "/home/ava/.config/fish/config.fish"
                       (path_block "set -gx PATH ~/bin $PATH")] |}).
Proof.
  assert (H : effective_shell (host "linux" oracle_bare) (Some "fish") ∈ Object_keys shellConfigs).
  { apply (bool_decide_unpack _). vm_compute. exact I. }
  split; [exact H |].
  rewrite (setupPath_append_refused (host "linux" oracle_bare) (Some "fish") fresh_home
             ("ENOENT: no such file or directory, open "
              +:+ "'/home/ava/.config/fish/config.fish'") H).
  - vm_compute. reflexivity.
  - vm_compute. reflexivity.
  - vm_compute. discriminate.
  - intros content. vm_compute. discriminate.
  - vm_compute. reflexivity.
Defined.

Lemma setupPath_unreadable_appends_again_witness :
  (effective_shell (host "linux" oracle_bare) (Some "bash") ∈ Object_keys shellConfigs)
  /\ nodes (world home_with_unreadable_bashrc) !! "/home/ava/.bashrc"
     = Some (AppendOnly "alias ll='ls -l'")
  /\ nodes (world (snd (setupPath (host "linux" oracle_bare) (Some "bash")
                          (snd (setupPath (host "linux" oracle_bare) (Some "bash")
                                  home_with_unreadable_bashrc)))))
       !! "/home/ava/.bashrc"
     = Some (AppendOnly (("alias ll='ls -l'" +:+ path_block "export PATH=~/bin:$PATH")
                         +:+ path_block "export PATH=~/bin:$PATH")).
Proof.
  assert (H : effective_shell (host "linux" oracle_bare) (Some "bash") ∈ Object_keys shellConfigs).
  { apply (bool_decide_unpack _). vm_compute. exact I. }
  split; [exact H |]. split; [vm_compute; reflexivity |].
  refine (proj1 (proj2 (setupPath_unreadable_appends_again (host "linux" oracle_bare)
                          (Some "bash") home_with_unreadable_bashrc "alias ll='ls -l'"
                          H _ _ _))).
  - vm_compute. reflexivity.
  - vm_compute. discriminate.
  - intros w. cbn. destruct (nodes w !! _); reflexivity.
Defined.

Lemma install_mkdir_refused_witness :
  supported_platform (os_platform (read_only (host "linux" oracle_online)))
  /\ installAvalancheCLI (read_only (host "linux" oracle_online)) true fresh_home
     = (Return (json_response (failure_payload (JsError "EROFS: read-only file system"))),
        {| world := world fresh_home;
           trace := [EvAccess "/home/ava/bin"; EvMkdir "/home/ava/bin"] |}).
Proof.
  assert (H : supported_platform (os_platform (read_only (host "linux" oracle_online)))).
  { left. reflexivity. }
  split; [exact H |].
  exact (proj1 (install_mkdir_refused (read_only (host "linux" oracle_online)) fresh_home
                  "EROFS: read-only file system" H eq_refl eq_refl)).
Defined.

Lemma setupPath_already_configured_witness :
  (effective_shell (host "linux" oracle_bare) None ∈ Object_keys shellConfigs)
  /\ setupPath (host "linux" oracle_bare) None home_with_zshrc
     = (Return (json_response (already_payload "/home/ava/.zshrc")),
        {| world := world home_with_zshrc; trace := [EvReadFile "/home/ava/.zshrc"] |}).
Proof.
  assert (H : effective_shell (host "linux" oracle_bare) None ∈ Object_keys shellConfigs).
  { apply (bool_decide_unpack _). vm_compute. exact I. }
  split; [exact H |].
  exact (setupPath_already_configured (host "linux" oracle_bare) None home_with_zshrc
           "export PATH=/home/ava/bin:$PATH" H eq_refl eq_refl).
Defined.

Lemma setupPath_directory_in_the_way_witness :
  (effective_shell (host "linux" oracle_bare) (Some "bash") ∈ Object_keys shellConfigs)
  /\ fst (setupPath (host "linux" oracle_bare) (Some "bash") home_with_bashrc_directory)
     = Return (json_response (failure_payload
                 (errno "EISDIR" "illegal operation on a directory" "open" "/home/ava/.bashrc")))
  /\ world (snd (setupPath (host "linux" oracle_bare) (Some "bash") home_with_bashrc_directory))
     = world home_with_bashrc_directory.
Proof.
  assert (H : effective_shell (host "linux" oracle_bare) (Some "bash") ∈ Object_keys shellConfigs).
  { apply (bool_decide_unpack _). vm_compute. exact I. }
  split; [exact H |].
  rewrite (setupPath_directory_in_the_way (host "linux" oracle_bare) (Some "bash")
             home_with_bashrc_directory H eq_refl).
  - split; reflexivity.
  - vm_compute. discriminate.
Defined.

Lemma setupPath_shell_detection_witness :
  effective_shell (host "linux" oracle_bare) None = "zsh"
  /\ setupPath (host "linux" oracle_bare) None fresh_home
     = setupPath (host "linux" oracle_bare) (Some "zsh") fresh_home.
Proof.
  split; [vm_compute; reflexivity |].
  assert (H : effective_shell (host "linux" oracle_bare) None <> "").
  { vm_compute. discriminate. }
  exact (proj1 (proj2 (setupPath_shell_detection (host "linux" oracle_bare) None fresh_home H))).
Defined.

Lemma setup_path_unsupported_shell_witness :
  (effective_shell (host "linux" oracle_bare)
     (Some {| force := None; shell := Some "powershell"; tag := None |} ≫= shell)
   ∉ Object_keys shellConfigs)
  /\ CallTool (host "linux" oracle_bare) "setup_path"
       (Some {| force := None; shell := Some "powershell"; tag := None |}) home_with_zshrc
     = (Return (json_response (JObject
          [ ("success", JBool false);
            ("error", JString "Unsupported shell: powershell");
            ("supported_shells", JArray [JString "bash"; JString "zsh"; JString "fish"]) ])),
        home_with_zshrc).
Proof.
  assert (Hs : effective_shell (host "linux" oracle_bare)
                 (Some {| force := None; shell := Some "powershell"; tag := None |} ≫= shell)
               ∉ Object_keys shellConfigs).
  { apply (bool_decide_unpack _). vm_compute. exact I. }
  split; [exact Hs |].
  apply (setup_path_unsupported_shell (host "linux" oracle_bare)
           (Some {| force := None; shell := Some "powershell"; tag := None |})
           home_with_zshrc Hs).
  apply (bool_decide_unpack _). vm_compute. exact I.
Defined.

Lemma CallTool_throw_leaves_state_witness :
  CallTool (host "linux" oracle_installed) "setup_path"
    (Some {| force := None; shell := Some "valueOf"; tag := None |}) home_with_zshrc
  = (Throw (McpError InternalError
              (sdk_message InternalError (node_invalid_arg "valueOf"))), home_with_zshrc)
  /\ exists message,
       McpError InternalError (sdk_message InternalError (node_invalid_arg "valueOf"))
       = McpError InternalError message.
Proof.
  assert (H : CallTool (host "linux" oracle_installed) "setup_path"
                (Some {| force := None; shell := Some "valueOf"; tag := None |}) home_with_zshrc
              = (Throw (McpError InternalError
                          (sdk_message InternalError (node_invalid_arg "valueOf"))),
                 home_with_zshrc)).
  { reflexivity. }
  split; [exact H |].
  exact (proj2 (CallTool_throw_leaves_state (host "linux" oracle_installed) "setup_path"
                  (Some {| force := None; shell := Some "valueOf"; tag := None |})
                  home_with_zshrc _ _ H)).
Defined.

Lemma CallTool_payload_round_trip_witness :
  CallTool (host "linux" oracle_bare) "check_installation" None fresh_home
  = (Return (json_response not_installed_payload),
     {| world := world fresh_home; trace := [EvExec "avalanche --version"] |})
  /\ ((exists v, json_response not_installed_payload = json_response v
                 /\ JSON_parse (JSON_stringify v) = Some v)
      \/ json_response not_installed_payload = text_response already_installed_text).
Proof.
  assert (H : CallTool (host "linux" oracle_bare) "check_installation" None fresh_home
              = (Return (json_response not_installed_payload),
                 {| world := world fresh_home; trace := [EvExec "avalanche --version"] |})).
  { reflexivity. }
  split; [exact H |].
  exact (CallTool_payload_round_trip (host "linux" oracle_bare) "check_installation" None
           fresh_home _ _ H).
Defined.

